(** * LiteCore replication front end and error utilities

    A shallow embedding of [Replicator/c4Replicator.cc] (URL and database-name
    validation, the [C4Replicator] controller) and of the error part of
    [C/c4Base.cc] (the buffer of recent error messages and the two error
    classifiers), with the properties the specification states about them. *)

From Stdlib Require Import Ascii String.
From Stdlib Require Import ZArith List Bool Arith Lia.
Import ListNotations.

(** ** Slices

    A Fleece [slice] (and the identical [C4Slice]/[C4String]) is a pair
    [(buf, size)].  The slice class itself lives in the Fleece library, not in
    the files embedded here; its operations are modelled after their Fleece
    definitions.  A slice is represented by the bytes it spans, the null slice
    [{nullptr, 0}] apart.  A pointer into a slice is represented by its offset
    from the slice's [buf]; [end()] is the offset [size]. *)

Inductive slice : Type :=
| nullslice : slice
| Slice : list ascii -> slice.

Definition bytes (s : slice) : list ascii :=
  match s with
  | nullslice => []
  | Slice l => l
  end.

Definition size (s : slice) : nat := length (bytes s).

(** The literal suffix [_sl] of the source. *)
Definition sl (s : string) : list ascii := list_ascii_of_string s.

(** [slice::findByte]: [memchr], the offset of the first occurrence. *)
Fixpoint findByte (s : list ascii) (b : ascii) : option nat :=
  match s with
  | [] => None
  | c :: r => if Ascii.eqb c b then Some 0
              else match findByte r b with
                   | Some i => Some (S i)
                   | None => None
                   end
  end.

(** [slice::findByteOrEnd]: the first occurrence, or [end()]. *)
Definition findByteOrEnd (s : list ascii) (b : ascii) : nat :=
  match findByte s b with
  | Some i => i
  | None => length s
  end.

(** [slice::findByteNotIn]: the first byte that is not one of [targetBytes],
    or [nullptr]. *)
Fixpoint findByteNotIn (s targetBytes : list ascii) : option nat :=
  match s with
  | [] => None
  | c :: r => match findByte targetBytes c with
              | None => Some 0
              | Some _ => match findByteNotIn r targetBytes with
                          | Some i => Some (S i)
                          | None => None
                          end
              end
  end.

(** [slice::operator==]: same size and same bytes. *)
Fixpoint slice_eqb (a b : list ascii) : bool :=
  match a, b with
  | [], [] => true
  | x :: a', y :: b' => Ascii.eqb x y && slice_eqb a' b'
  | _, _ => false
  end.

(** [slice::hasPrefix] and [slice::hasSuffix]; the source calls them with
    non-empty literals only. *)
Fixpoint hasPrefix (s p : list ascii) {struct p} : bool :=
  match p, s with
  | [], _ => true
  | y :: p', x :: s' => Ascii.eqb x y && hasPrefix s' p'
  | _ :: _, [] => false
  end.

Definition hasSuffix (s p : list ascii) : bool :=
  (length p <=? length s) && slice_eqb (skipn (length s - length p) s) p.

(** [slice(start, end)], [setStart], [moveStart] and [setSize], on offsets. *)
Definition between (s : list ascii) (p q : nat) : list ascii :=
  firstn (q - p) (skipn p s).

Definition setStart (s : list ascii) (p : nat) : list ascii := skipn p s.
Definition moveStart (s : list ascii) (delta : nat) : list ascii := skipn delta s.
Definition setSize (s : list ascii) (n : nat) : list ascii := firstn n s.

(** [islower] of <ctype.h>, in the C locale. *)
Definition islower (c : ascii) : bool :=
  (97 <=? nat_of_ascii c) && (nat_of_ascii c <=? 122).

(** ** Database names ([c4repl_isValidDatabaseName]) *)

Definition kDatabaseNameBytes : list ascii :=
  sl "abcdefghijklmnopqrstuvwxyz0123456789_$()+-/".

Definition is_null (p : option nat) : bool :=
  match p with
  | None => true
  | Some _ => false
  end.

Definition c4repl_isValidDatabaseName (dbName : slice) : bool :=
  let name := bytes dbName in
  (0 <? length name) && (length name <? 240)
  && islower (nth 0 name zero)
  && is_null (findByteNotIn name kDatabaseNameBytes).

(** The rule as the specification words it. *)
Definition lowercase_letter (c : ascii) : Prop :=
  97 <= nat_of_ascii c <= 122.

Definition digit_char (c : ascii) : Prop :=
  48 <= nat_of_ascii c <= 57.

Definition name_punctuation (c : ascii) : Prop :=
  In c (sl "_$()+-/").

Definition name_char (c : ascii) : Prop :=
  lowercase_letter c \/ digit_char c \/ name_punctuation c.

Definition name_digit (c : ascii) : bool :=
  (48 <=? nat_of_ascii c) && (nat_of_ascii c <=? 57).

Definition first_is_lowercase (s : list ascii) : Prop :=
  exists c r, s = c :: r /\ lowercase_letter c.

Definition valid_database_name (s : list ascii) : Prop :=
  0 < length s < 240 /\ first_is_lowercase s /\ Forall name_char s.

(** The same rule on one byte, as a test. *)
Definition name_charb (c : ascii) : bool :=
  islower c || name_digit c || existsb (Ascii.eqb c) (sl "_$()+-/").

(** ** URLs ([c4repl_parseURL]) *)

(** [C4Address], as [c4repl_parseURL] and [addressFrom] use it. *)
Record C4Address : Type := mkC4Address {
  scheme : slice;
  hostname : slice;
  port : Z;               (* uint16_t *)
  path : slice
}.

Definition set_scheme (a : C4Address) (v : slice) : C4Address :=
  mkC4Address v (hostname a) (port a) (path a).
Definition set_hostname (a : C4Address) (v : slice) : C4Address :=
  mkC4Address (scheme a) v (port a) (path a).
Definition set_port (a : C4Address) (v : Z) : C4Address :=
  mkC4Address (scheme a) (hostname a) v (path a).
Definition set_path (a : C4Address) (v : slice) : C4Address :=
  mkC4Address (scheme a) (hostname a) (port a) v.

Definition kValidSchemes : list (list ascii) :=
  [sl "ws"; sl "wss"; sl "blip"; sl "blips"].

Definition isValidScheme (scheme : slice) : bool :=
  existsb (slice_eqb (bytes scheme)) kValidSchemes.

(** [std::stoi] (base 10), which the source calls on the port substring:
    [strtol] skips leading white space, takes an optional sign and then the
    longest run of decimal digits, and ignores whatever follows.  It throws
    [invalid_argument] when there is no digit to convert and [out_of_range]
    when the value does not fit an [int]; both are [None] here. *)
Definition isspace (c : ascii) : bool :=
  (nat_of_ascii c =? 32) || ((9 <=? nat_of_ascii c) && (nat_of_ascii c <=? 13)).

Definition isdigit (c : ascii) : bool :=
  (48 <=? nat_of_ascii c) && (nat_of_ascii c <=? 57).

Definition digit_value (c : ascii) : Z := Z.of_nat (nat_of_ascii c) - 48.

Fixpoint skip_spaces (s : list ascii) : list ascii :=
  match s with
  | c :: r => if isspace c then skip_spaces r else s
  | [] => []
  end.

Fixpoint read_digits (s : list ascii) (acc : Z) : Z :=
  match s with
  | c :: r => if isdigit c then read_digits r (10 * acc + digit_value c) else acc
  | [] => acc
  end.

Definition INT_MIN : Z := - 2 ^ 31.
Definition INT_MAX : Z := 2 ^ 31 - 1.

Definition starts_with_digit (s : list ascii) : bool :=
  match s with
  | c :: _ => isdigit c
  | [] => false
  end.

Definition stoi (s : list ascii) : option Z :=
  let s1 := skip_spaces s in
  let '(negative, s2) :=
    match s1 with
    | c :: r => if Ascii.eqb c "-" then (true, r)
                else if Ascii.eqb c "+" then (false, r)
                else (false, s1)
    | [] => (false, s1)
    end in
  if starts_with_digit s2 then
    let magnitude := read_digits s2 0 in
    let value := if negative then (- magnitude)%Z else magnitude in
    if ((INT_MIN <=? value) && (value <=? INT_MAX))%Z then Some value else None
  else None.

Definition to_uint16 (z : Z) : Z := (z mod 2 ^ 16)%Z.

(** [c4repl_parseURL] is embedded in three consecutive pieces, so that lemmas
    can address each: the path (lines 187-196), host and optional port (lines
    171-186), and the scheme (lines 157-169).

    The path: [str] has been moved to the first slash. *)
Definition parseURL_path (str : list ascii) (address : C4Address) (dbName : slice)
  : bool * C4Address * slice :=
  if length str =? 0 then (false, address, dbName) else
  let address := set_path address (Slice (sl "/")) in
  let str := if Ascii.eqb (nth 0 str zero) "/" then moveStart str 1 else str in
  let str := if hasSuffix str (sl "/") then setSize str (length str - 1) else str in
  let dbName := Slice str in
  (c4repl_isValidDatabaseName dbName, address, dbName).

(** Host and optional port: the scheme and ["://"] have been consumed. *)
Definition parseURL_authority (str : list ascii) (address : C4Address) (dbName : slice)
  : bool * C4Address * slice :=
  let colon := findByteOrEnd str ":" in
  let slash := findByteOrEnd str "/" in
  let port_step :=
    if colon <? slash then
      match stoi (between str (colon + 1) slash) with
      | None => None                                     (* catch (...) *)
      | Some port =>
          if ((port <? 0) || (port >? 65535))%Z then None
          else Some (set_port address (to_uint16 port), colon)
      end
    else Some (address, slash) in
  match port_step with
  | None => (false, address, dbName)
  | Some (address, colon) =>
      let address := set_hostname address (Slice (between str 0 colon)) in
      parseURL_path (setStart str slash) address dbName
  end.

(** [c4repl_parseURL url address dbName]: the returned triple is the function's
    result and the contents of [*address] and [*dbName] when it returns. *)
Definition c4repl_parseURL (url : slice) (address : C4Address) (dbName : slice)
  : bool * C4Address * slice :=
  match url with
  | nullslice => (false, address, dbName)     (* findByteOrEnd gives nullptr *)
  | Slice str =>
      let colon := findByteOrEnd str ":" in
      let address := set_scheme address (Slice (between str 0 colon)) in
      if negb (isValidScheme (scheme address)) then (false, address, dbName) else
      let address :=
        set_port address (if Ascii.eqb (nth (colon - 1) str zero) "s" then 443 else 80)%Z in
      let str := setStart str colon in
      if negb (hasPrefix str (sl "://")) then (false, address, dbName) else
      let str := moveStart str 3 in
      parseURL_authority str address dbName
  end.

Definition parse_ok (r : bool * C4Address * slice) : bool := fst (fst r).
Definition parse_address (r : bool * C4Address * slice) : C4Address := snd (fst r).
Definition parse_dbName (r : bool * C4Address * slice) : slice := snd r.

(** An output address nobody has written to. *)
Definition kAddressUnset : C4Address := mkC4Address nullslice nullslice 0 nullslice.

(** A URL given as a string literal. *)
Definition url (s : string) : slice := Slice (sl s).

(** *** Vocabulary for statements about URLs *)

(** The port [c4repl_parseURL] sets before it looks for an explicit one: the
    test is on the last byte of the scheme. *)
Definition default_port (scheme : list ascii) : Z :=
  if Ascii.eqb (last scheme zero) "s" then 443%Z else 80%Z.

(** The bytes of an optional explicit port, colon included. *)
Definition port_bytes (p : option (list ascii)) : list ascii :=
  match p with
  | Some digits => ":"%char :: digits
  | None => []
  end.

(** The port number of a URL with scheme [scheme] and optional port substring
    [p], when the source accepts it. *)
Definition port_number (scheme : list ascii) (p : option (list ascii)) : option Z :=
  match p with
  | None => Some (default_port scheme)
  | Some digits =>
      match stoi digits with
      | Some n => if ((n <? 0) || (n >? 65535))%Z then None else Some (to_uint16 n)
      | None => None
      end
  end.

(** What is left of the path once its leading slash is gone: one trailing
    slash is dropped. *)
Definition strip_trailing_slash (s : list ascii) : list ascii :=
  if hasSuffix s (sl "/") then setSize s (length s - 1) else s.

(** A path is empty or begins with a slash. *)
Definition path_shaped (p : list ascii) : Prop :=
  p = [] \/ exists body, p = "/"%char :: body.

(** "Parses as an integer", as the specification words the rule for ports: an
    optional sign followed by decimal digits and nothing else. *)
Definition all_digits (s : list ascii) : bool :=
  negb (length s =? 0) && forallb isdigit s.

Definition integer_literal (s : list ascii) : option Z :=
  match s with
  | c :: r =>
      if Ascii.eqb c "-" then
        (if all_digits r then Some (- read_digits r 0)%Z else None)
      else if Ascii.eqb c "+" then
        (if all_digits r then Some (read_digits r 0) else None)
      else if all_digits s then Some (read_digits s 0) else None
  | [] => None
  end.

(** Whether a value fits an [int]. *)
Definition in_int_range (v : Z) : bool := ((INT_MIN <=? v) && (v <=? INT_MAX))%Z.

(** ** Errors ([c4Base.cc])

    [C4Error] is declared in [c4Base.h]; the functions below read and write its
    three fields. *)
Record C4Error : Type := mkC4Error {
  domain : Z;             (* C4ErrorDomain *)
  code : Z;               (* int *)
  internal_info : Z       (* uint32_t *)
}.

Definition to_uint32 (z : Z) : Z := (z mod 2 ^ 32)%Z.

(** Conversion of a [uint32_t] value to [int32_t] (two's complement). *)
Definition to_int32 (z : Z) : Z := ((z + 2 ^ 31) mod 2 ^ 32 - 2 ^ 31)%Z.

(** *** The buffer of recent error messages

    The three statics of namespace [c4Internal]; the mutex serialises the
    accesses, so each function is one atomic step on this state. *)
Record ErrorMessages : Type := mkErrorMessages {
  sFirstErrorMessageInternalInfo : Z;       (* uint32_t *)
  sErrorMessages : list string              (* deque<string> *)
}.

Definition kInitialErrorMessages : ErrorMessages := mkErrorMessages 1000 [].

(** Modelled from the spec: the declaration of [kMaxErrorMessagesToSave] is not
    in the embedded files; the specification gives the buffer a capacity of 10,
    and the source comments the deque as the last 10 error message strings. *)
Definition kMaxErrorMessagesToSave : nat := 10.

Definition string_empty (s : string) : bool :=
  match s with
  | EmptyString => true
  | String _ _ => false
  end.

(** [recordError domain code message outError]: [outError] is [None] for a null
    pointer, and the second component of the result is what [*outError] holds
    afterwards. *)
Definition recordError (domain code : Z) (message : string) (outError : option C4Error)
    (st : ErrorMessages) : ErrorMessages * option C4Error :=
  match outError with
  | None => (st, None)
  | Some _ =>
      if string_empty message then (st, Some (mkC4Error domain code 0)) else
      let pushed := sErrorMessages st ++ [message] in         (* emplace_back *)
      let st' :=
        if kMaxErrorMessagesToSave <? length pushed
        then mkErrorMessages (to_uint32 (sFirstErrorMessageInternalInfo st + 1))
                             (tl pushed)                      (* pop_front *)
        else mkErrorMessages (sFirstErrorMessageInternalInfo st) pushed in
      let info := to_uint32 (sFirstErrorMessageInternalInfo st'
                             + Z.of_nat (length (sErrorMessages st')) - 1) in
      (st', Some (mkC4Error domain code info))
  end.

Definition lookupErrorMessage (error : C4Error) (st : ErrorMessages) : string :=
  let index := to_int32 (to_uint32 (internal_info error - sFirstErrorMessageInternalInfo st)) in
  if ((0 <=? index) && (index <? Z.of_nat (length (sErrorMessages st))))%Z
  then nth (Z.to_nat index) (sErrorMessages st) EmptyString
  else EmptyString.

(** [c4error_make]: [recordError] into a local [C4Error], which is returned. *)
Definition c4error_make (domain code : Z) (message : string) (st : ErrorMessages)
  : ErrorMessages * C4Error :=
  match recordError domain code message (Some (mkC4Error 0 0 0)) st with
  | (st', Some e) => (st', e)
  | (st', None) => (st', mkC4Error 0 0 0)
  end.

(** Recording a sequence of messages, one [c4error_make] each; the errors come
    back in the order of the calls. *)
Fixpoint record_all (domain code : Z) (messages : list string) (st : ErrorMessages)
  : ErrorMessages * list C4Error :=
  match messages with
  | [] => (st, [])
  | m :: rest =>
      let '(st1, e) := c4error_make domain code m st in
      let '(st2, es) := record_all domain code rest st1 in
      (st2, e :: es)
  end.

(** What [recordError] maintains: the first token is a [uint32_t] and the deque
    never holds more than [kMaxErrorMessagesToSave] messages. *)
Definition buffer_ok (st : ErrorMessages) : Prop :=
  (0 <= sFirstErrorMessageInternalInfo st < 2 ^ 32)%Z
  /\ length (sErrorMessages st) <= kMaxErrorMessagesToSave.

Definition nonempty (m : string) : Prop := m <> EmptyString.

(** The token of an error, and the error a token stands for in a lookup. *)
Definition token (e : C4Error) : Z := internal_info e.
Definition kNoError : C4Error := mkC4Error 0 0 0.

(** *** Error classification *)

(** The rows of the two tables are "indexed by C4ErrorDomain".  The enum is
    declared in [c4Base.h], which is not among the embedded files; the tables
    have seven rows, and the rows that hold the POSIX, Network and WebSocket
    lists fix the numbers of these three domains. *)
Definition kC4MaxErrorDomainPlus1 : Z := 7.
Definition POSIXDomain : Z := 2.
Definition NetworkDomain : Z := 5.
Definition WebSocketDomain : Z := 6.

(** A [CodeList] is an array of codes closed by a 0; an [ErrorSet] has one
    entry per domain, [None] for [nullptr]. *)
Definition CodeList : Type := list Z.
Definition ErrorSet : Type := list (option CodeList).

(** The loop [for (; *pCode != 0; ++pCode)] of [errorIsInSet]. *)
Fixpoint code_in_list (pCode : CodeList) (code : Z) : bool :=
  match pCode with
  | [] => false
  | c :: rest =>
      if (c =? 0)%Z then false
      else if (c =? code)%Z then true
      else code_in_list rest code
  end.

Definition errorIsInSet (err : C4Error) (set : ErrorSet) : bool :=
  if (negb (code err =? 0) && (to_uint32 (domain err) <? kC4MaxErrorDomainPlus1))%Z then
    match nth (Z.to_nat (to_uint32 (domain err))) set None with
    | Some pCode => code_in_list pCode (code err)
    | None => false
    end
  else false.

(** The error numbers of <errno.h> and the codes of [c4Base.h] and
    [WebSocketInterface.hh] that the tables name: their values depend on the
    platform or are declared outside the embedded files, so the tables take
    them from a record.  [MSC_VER] tells whether the build defines
    [_MSC_VER]. *)
Record Platform : Type := mkPlatform {
  ENETRESET : Z; ECONNABORTED : Z; ECONNRESET : Z; ETIMEDOUT : Z; ECONNREFUSED : Z;
  ENETDOWN : Z; ENETUNREACH : Z; ENOTCONN : Z; EHOSTDOWN : Z; EHOSTUNREACH : Z;
  EADDRNOTAVAIL : Z;
  kC4NetErrDNSFailure : Z; kC4NetErrUnknownHost : Z; kCodeGoingAway : Z;
  MSC_VER : bool
}.

Section ErrorTables.

Variable k : Platform.

Definition kTransientPOSIX : CodeList :=
  [ENETRESET k; ECONNABORTED k; ECONNRESET k; ETIMEDOUT k; ECONNREFUSED k; 0%Z].

Definition kTransientNetwork : CodeList := [kC4NetErrDNSFailure k; 0%Z].

Definition kTransientWebSocket : CodeList :=
  [408; 429; 500; 502; 503; 504; kCodeGoingAway k; 0]%Z.

Definition kTransient : ErrorSet :=
  [None; None; Some kTransientPOSIX; None; None;
   Some kTransientNetwork; Some kTransientWebSocket].

Definition c4error_mayBeTransient (err : C4Error) : bool :=
  errorIsInSet err kTransient.

Definition kUnreachablePOSIX : CodeList :=
  [ENETDOWN k; ENETUNREACH k; ENOTCONN k; ETIMEDOUT k]
  ++ (if MSC_VER k then [] else [EHOSTDOWN k])
  ++ [EHOSTUNREACH k; EADDRNOTAVAIL k; 0%Z].

Definition kUnreachableNetwork : CodeList :=
  [kC4NetErrDNSFailure k; kC4NetErrUnknownHost k; 0%Z].

Definition kUnreachable : ErrorSet :=
  [None; None; Some kUnreachablePOSIX; None; None;
   Some kUnreachableNetwork; None].

Definition c4error_mayBeNetworkDependent (err : C4Error) : bool :=
  errorIsInSet err kUnreachable.

End ErrorTables.

(** The values on Linux, in a build without [_MSC_VER]. *)
Definition kLinux : Platform :=
  mkPlatform 102 103 104 110 111 100 101 107 112 113 99 1 2 1001 false.

(** A value of the 32-bit enum type of [C4Error::domain], whichever its
    signedness. *)
Definition domain_value (d : Z) : Prop := (- 2 ^ 31 <= d < 2 ^ 32)%Z.

(** The row of a table that [errorIsInSet] reads for a domain. *)
Definition registered (set : ErrorSet) (d : Z) : option CodeList :=
  nth (Z.to_nat (to_uint32 d)) set None.

(** ** The replicator controller ([struct C4Replicator]) *)

Inductive C4ReplicatorActivityLevel : Type :=
| kC4Stopped | kC4Offline | kC4Connecting | kC4Idle | kC4Busy.

Inductive C4ReplicatorMode : Type :=
| kC4Disabled | kC4Passive | kC4OneShot | kC4Continuous.

Definition level_eqb (a b : C4ReplicatorActivityLevel) : bool :=
  match a, b with
  | kC4Stopped, kC4Stopped | kC4Offline, kC4Offline
  | kC4Connecting, kC4Connecting | kC4Idle, kC4Idle | kC4Busy, kC4Busy => true
  | _, _ => false
  end.

Definition mode_eqb (a b : C4ReplicatorMode) : bool :=
  match a, b with
  | kC4Disabled, kC4Disabled | kC4Passive, kC4Passive
  | kC4OneShot, kC4OneShot | kC4Continuous, kC4Continuous => true
  | _, _ => false
  end.

Record C4ReplicatorStatus : Type := mkStatus {
  level : C4ReplicatorActivityLevel;
  progress : Z * Z;
  error : C4Error
}.

(** [websocket::Address], built by the two [addressFrom] overloads. *)
Record Address : Type := mkAddress {
  a_scheme : list ascii;
  a_hostname : list ascii;
  a_port : Z;
  a_path : list ascii
}.

(** Database handles and heap objects are named by their addresses. *)
Definition C4Database : Type := nat.
Definition ptr : Type := nat.

(** How a protocol engine reaches its peer: through a provider and an address,
    or through a socket the loopback provider has already created. *)
Inductive Transport : Type :=
| DefaultProvider : Transport
| LoopbackProvider : Transport
| LoopbackWebSocket : Address -> Transport.

Record Options : Type := mkOptions {
  push : C4ReplicatorMode;
  pull : C4ReplicatorMode
}.

(** A protocol engine ([repl::Replicator], declared in [Replicator.hh]) is an
    external collaborator: it is represented by the arguments its constructor
    received, the delegate ([*this]) apart. *)
Record Replicator : Type := mkReplicator {
  r_db : C4Database;
  r_transport : Transport;
  r_address : Address;
  r_options : Options
}.

(** The heap of engines ([new Replicator] appends, the pointer is the index)
    and the socket pairs the loopback provider has connected. *)
Record World : Type := mkWorld {
  engines : list Replicator;
  connected : list (ptr * ptr)
}.

Definition new_Replicator (w : World) (r : Replicator) : World * ptr :=
  (mkWorld (engines w ++ [r]) (connected w), length (engines w)).

Definition connect (w : World) (a b : ptr) : World :=
  mkWorld (engines w) (connected w ++ [(a, b)]).

Definition engine (w : World) (p : ptr) : option Replicator := nth_error (engines w) p.

Record C4Replicator : Type := mkC4Replicator {
  _onStateChanged : option nat;         (* the callback, [None] for nullptr *)
  _callbackContext : nat;
  _replicator : ptr;
  _otherReplicator : option ptr;
  _status : C4ReplicatorStatus;
  _otherLevel : C4ReplicatorActivityLevel;
  _selfRetain : bool;                   (* [this], or nullptr once released *)
  refCount : nat                        (* of the RefCounted base *)
}.

(** What [%.*s] prints of a slice given through [SPLAT]: its bytes, up to its
    size or up to its first NUL byte. *)
Definition printed_bytes (s : slice) : list ascii :=
  firstn (findByteOrEnd (bytes s) zero) (bytes s).

(** [format("/%.*s/_blipsync", SPLAT(remoteDatabaseName))]. *)
Definition sl_format_blipsync (remoteDatabaseName : slice) : list ascii :=
  sl "/" ++ printed_bytes remoteDatabaseName ++ sl "/_blipsync".

Definition addressFrom_remote (addr : C4Address) (remoteDatabaseName : slice) : Address :=
  mkAddress (bytes (scheme addr)) (bytes (hostname addr)) (port addr)
            (sl_format_blipsync remoteDatabaseName).

(** One call of the status callback: callback, status and context. *)
Definition CallbackCall : Type := (nat * C4ReplicatorStatus * nat)%type.

Definition notify (c : C4Replicator) : list CallbackCall :=
  match _onStateChanged c with
  | Some on => [(on, _status c, _callbackContext c)]
  | None => []
  end.

Definition set_status (c : C4Replicator) (s : C4ReplicatorStatus) : C4Replicator :=
  mkC4Replicator (_onStateChanged c) (_callbackContext c) (_replicator c)
    (_otherReplicator c) s (_otherLevel c) (_selfRetain c) (refCount c).

Definition set_otherLevel (c : C4Replicator) (l : C4ReplicatorActivityLevel) : C4Replicator :=
  mkC4Replicator (_onStateChanged c) (_callbackContext c) (_replicator c)
    (_otherReplicator c) (_status c) l (_selfRetain c) (refCount c).

(** [_selfRetain = nullptr]: drops the reference if one is held. *)
Definition clear_selfRetain (c : C4Replicator) : C4Replicator :=
  mkC4Replicator (_onStateChanged c) (_callbackContext c) (_replicator c)
    (_otherReplicator c) (_status c) (_otherLevel c) false
    (if _selfRetain c then pred (refCount c) else refCount c).

Definition retain (c : C4Replicator) : C4Replicator :=
  mkC4Replicator (_onStateChanged c) (_callbackContext c) (_replicator c)
    (_otherReplicator c) (_status c) (_otherLevel c) (_selfRetain c) (S (refCount c)).

Definition detach (c : C4Replicator) : C4Replicator :=
  mkC4Replicator None (_callbackContext c) (_replicator c)
    (_otherReplicator c) (_status c) (_otherLevel c) (_selfRetain c) (refCount c).

Definition status (c : C4Replicator) : C4ReplicatorStatus := _status c.

Definition both_stopped (c : C4Replicator) : bool :=
  level_eqb (level (status c)) kC4Stopped && level_eqb (_otherLevel c) kC4Stopped.

(** [replicatorStatusChanged repl newStatus], in its two steps.  First the
    status is recorded according to the sender (lines 111-116); the result is
    the controller and the callback calls made. *)
Definition record_status (c : C4Replicator) (repl : ptr)
    (newStatus : C4ReplicatorStatus) : C4Replicator * list CallbackCall :=
  if repl =? _replicator c then
    let c1 := set_status c newStatus in (c1, notify c1)
  else
    match _otherReplicator c with
    | Some other =>
        if repl =? other then (set_otherLevel c (level newStatus), []) else (c, [])
    | None => (c, [])
    end.

(** Then the self-reference is dropped if both levels are stopped (lines
    118-119). *)
Definition release_when_stopped (c : C4Replicator) : C4Replicator :=
  if both_stopped c then clear_selfRetain c else c.

Definition replicatorStatusChanged (c : C4Replicator) (repl : ptr)
    (newStatus : C4ReplicatorStatus) : C4Replicator * list CallbackCall :=
  let '(c1, calls) := record_status c repl newStatus in
  (release_when_stopped c1, calls).

(** The controller after a sequence of notifications [(repl, newStatus)]. *)
Definition Notification : Type := (ptr * C4ReplicatorStatus)%type.

Fixpoint deliver (c : C4Replicator) (ns : list Notification) : C4Replicator :=
  match ns with
  | [] => c
  | (repl, newStatus) :: rest =>
      deliver (fst (replicatorStatusChanged c repl newStatus)) rest
  end.

(** *** Construction

    [c4repl_new] runs the constructors inside [try { ... } catchError(outError)]:
    a collaborator that throws ends the construction, and the function returns
    no replicator with the error made of the exception.  Which collaborator
    throws, and what, is not decided by the embedded files; it is given by a
    record, one field per call that can throw: the allocation of the
    controller, the two providers, the strings of an address, the constructor
    of an engine, and the two calls on the loopback provider.  Where C++
    leaves the order of two calls open (the arguments of a constructor), they
    are taken from left to right.  The heap records the engines that have been
    constructed; what the destructors do with the engines of a controller
    whose construction threw is not modelled. *)
Record Throws : Type := mkThrows {
  operator_new_throws : option C4Error;                  (* new C4Replicator(...) *)
  DefaultProvider_throws : option C4Error;
  loopbackProvider_throws : option C4Error;
  addressFrom_throws : Address -> option C4Error;
  Replicator_throws : Replicator -> option C4Error;      (* new Replicator(...) *)
  createWebSocket_throws : Address -> option C4Error;
  connect_throws : ptr -> ptr -> option C4Error
}.

(** No collaborator throws. *)
Definition kNoThrow : Throws :=
  mkThrows None None None (fun _ => None) (fun _ => None) (fun _ => None)
           (fun _ _ => None).

(** A construction step: it changes the heap and either yields a value or
    throws. *)
Definition Construct (A : Type) : Type := World -> World * (A + C4Error).

Definition ret {A : Type} (a : A) : Construct A := fun w => (w, inl a).

Definition bind {A B : Type} (m : Construct A) (k : A -> Construct B) : Construct B :=
  fun w =>
    match m w with
    | (w1, inl a) => k a w1
    | (w1, inr e) => (w1, inr e)
    end.

Definition may_throw (t : option C4Error) : Construct unit :=
  fun w =>
    match t with
    | Some e => (w, inr e)
    | None => (w, inl tt)
    end.

Notation "'run' x <- m ;; k" := (bind m (fun x => k))
  (at level 10, x name, m at level 100, k at level 200).

Section Construction.

(** External collaborators: the status an engine reports right after its
    construction, [c4db_openAgain], [c4db_getPath], and the exceptions. *)
Variable initial_status : Replicator -> C4ReplicatorStatus.
Variable c4db_openAgain : C4Database -> C4Database + C4Error.
Variable c4db_getPath : C4Database -> list ascii.
Variable throws : Throws.

Definition addressFrom_local (otherDB : C4Database) : Address :=
  mkAddress (sl "file") [] 0 (c4db_getPath otherDB).

(** [new Replicator(...)]: the constructor throws, or the engine is on the
    heap. *)
Definition construct_Replicator (r : Replicator) : Construct ptr :=
  run _ <- may_throw (Replicator_throws throws r) ;;
  fun w => let '(w1, p) := new_Replicator w r in (w1, inl p).

(** The private constructor. *)
Definition C4Replicator_private (db : C4Database) (provider : Transport)
    (address : Address) (push pull : C4ReplicatorMode)
    (onStateChanged : option nat) (callbackContext : nat) : Construct C4Replicator :=
  let r := mkReplicator db provider address (mkOptions push pull) in
  run p <- construct_Replicator r ;;
  ret (mkC4Replicator onStateChanged callbackContext p None (initial_status r)
         kC4Stopped true 1).

(** Constructor for replication with a remote database. *)
Definition C4Replicator_remote (db : C4Database) (remoteAddress : C4Address)
    (remoteDatabaseName : slice) (push pull : C4ReplicatorMode)
    (onStateChanged : option nat) (callbackContext : nat) : Construct C4Replicator :=
  run _ <- may_throw (DefaultProvider_throws throws) ;;
  let address := addressFrom_remote remoteAddress remoteDatabaseName in
  run _ <- may_throw (addressFrom_throws throws address) ;;
  C4Replicator_private db DefaultProvider address
    push pull onStateChanged callbackContext.

(** Constructor for replication with a local database.  The second
    [loopbackProvider()], in the body, returns the static object that the
    first one made. *)
Definition C4Replicator_local (db otherDB : C4Database)
    (push pull : C4ReplicatorMode)
    (onStateChanged : option nat) (callbackContext : nat) : Construct C4Replicator :=
  run _ <- may_throw (loopbackProvider_throws throws) ;;
  let address := addressFrom_local otherDB in
  run _ <- may_throw (addressFrom_throws throws address) ;;
  run c <- C4Replicator_private db LoopbackProvider address
         push pull onStateChanged callbackContext ;;
  let dbAddr := addressFrom_local db in
  run _ <- may_throw (addressFrom_throws throws dbAddr) ;;
  run _ <- may_throw (createWebSocket_throws throws dbAddr) ;;
  let other := mkReplicator otherDB (LoopbackWebSocket dbAddr) dbAddr
                            (mkOptions kC4Passive kC4Passive) in
  run q <- construct_Replicator other ;;
  let c2 := mkC4Replicator (_onStateChanged c) (_callbackContext c) (_replicator c)
              (Some q) (_status c) (level (initial_status other))
              (_selfRetain c) (refCount c) in
  run _ <- may_throw (connect_throws throws (_replicator c2) q) ;;
  fun w => (connect w (_replicator c2) q, inl c2).

(** Why [c4repl_new] returned no replicator: a parameter refused by
    [checkParam], the error of [c4db_openAgain], or the error that
    [catchError] made of an exception. *)
Inductive NewError : Type :=
| InvalidParameter : string -> NewError
| OpenAgainFailed : C4Error -> NewError
| Caught : C4Error -> NewError.

(** [new C4Replicator(...)] inside the [try] block, then [retain]. *)
Definition try_new (m : Construct C4Replicator) (w : World)
  : World * (C4Replicator + NewError) :=
  match (run _ <- may_throw (operator_new_throws throws) ;; m) w with
  | (w1, inl c) => (w1, inl (retain c))
  | (w1, inr e) => (w1, inr (Caught e))
  end.

Definition c4repl_new (w : World) (db : C4Database) (serverAddress : C4Address)
    (remoteDatabaseName : slice) (otherLocalDB : option C4Database)
    (push pull : C4ReplicatorMode)
    (onStatusChanged : option nat) (callbackContext : nat)
  : World * (C4Replicator + NewError) :=
  if mode_eqb push kC4Disabled && mode_eqb pull kC4Disabled then
    (w, inr (InvalidParameter "Either push or pull must be enabled"))
  else
    match c4db_openAgain db with
    | inr e => (w, inr (OpenAgainFailed e))
    | inl dbCopy =>
        match otherLocalDB with
        | Some other =>
            if other =? db then
              (w, inr (InvalidParameter "Can't replicate a database to itself"))
            else
              match c4db_openAgain other with
              | inr e => (w, inr (OpenAgainFailed e))
              | inl otherDBCopy =>
                  try_new (C4Replicator_local dbCopy otherDBCopy
                             push pull onStatusChanged callbackContext) w
              end
        | None =>
            if negb (isValidScheme (scheme serverAddress)) then
              (w, inr (InvalidParameter "Unsupported replication URL scheme"))
            else
              try_new (C4Replicator_remote dbCopy serverAddress
                         remoteDatabaseName push pull
                         onStatusChanged callbackContext) w
        end
    end.

(** The engines the constructors build. *)
Definition remote_engine (dbCopy : C4Database) (serverAddress : C4Address)
    (remoteDatabaseName : slice) (push pull : C4ReplicatorMode) : Replicator :=
  mkReplicator dbCopy DefaultProvider
    (addressFrom_remote serverAddress remoteDatabaseName) (mkOptions push pull).

Definition local_primary_engine (dbCopy otherCopy : C4Database)
    (push pull : C4ReplicatorMode) : Replicator :=
  mkReplicator dbCopy LoopbackProvider (addressFrom_local otherCopy)
               (mkOptions push pull).

Definition local_peer_engine (dbCopy otherCopy : C4Database) : Replicator :=
  mkReplicator otherCopy (LoopbackWebSocket (addressFrom_local dbCopy))
               (addressFrom_local dbCopy) (mkOptions kC4Passive kC4Passive).

End Construction.

(** ** The rest of the error interface ([c4Base.cc]) *)

(** [c4error_return]: [recordError] on the caller's pointer. *)
Definition c4error_return (domain code : Z) (message : string) (outError : option C4Error)
    (st : ErrorMessages) : ErrorMessages * option C4Error :=
  recordError domain code message outError st.

Section Messages.

(** [error(domain, code).what()], the generic message of a domain and code; the
    [error] class is declared outside the embedded files. *)
Variable what : Z -> Z -> string.

(** [c4error_getMessage]: [None] is the null result of [sliceResult(nullptr)].
    The bound [error::NumDomainsPlus1] equals [kC4MaxErrorDomainPlus1] by the
    [static_assert] at the head of namespace [c4Internal]. *)
Definition c4error_getMessage (err : C4Error) (st : ErrorMessages) : option string :=
  if (code err =? 0)%Z then None
  else if ((domain err <? 1) || (domain err >=? kC4MaxErrorDomainPlus1))%Z
  then Some "unknown error domain"%string
  else
    let message := lookupErrorMessage err st in
    if negb (string_empty message) then Some message
    else Some (what (domain err) (code err)).

(** Writes into a [char] array: a write past the end of the array has no
    defined result and is [None]. *)
Definition memcpy (buffer src : list ascii) (len : nat) : option (list ascii) :=
  if len <=? length buffer then Some (firstn len src ++ skipn len buffer) else None.

Definition store (buffer : list ascii) (i : nat) (v : ascii) : option (list ascii) :=
  if i <? length buffer then Some (firstn i buffer ++ v :: skipn (S i) buffer) else None.

(** Arithmetic on [size_t], taken as 64 bits wide. *)
Definition to_size_t (z : Z) : Z := (z mod 2 ^ 64)%Z.

(** The bytes of a message, none for the null result. *)
Definition message_bytes (msg : option string) : list ascii :=
  match msg with
  | Some m => list_ascii_of_string m
  | None => []
  end.

(** [c4error_getMessageC error buffer bufferSize]: [buffer] is the caller's
    array as it is, [bufferSize] the size the caller declares; the result is
    the array afterwards. *)
Definition c4error_getMessageC (error : C4Error) (buffer : list ascii) (bufferSize : Z)
    (st : ErrorMessages) : option (list ascii) :=
  let msg := c4error_getMessage error st in
  let len := Z.to_nat (Z.min (Z.of_nat (length (message_bytes msg)))
                             (to_size_t (bufferSize - 1))) in
  let copied := match msg with
                | Some _ => memcpy buffer (message_bytes msg) len
                | None => Some buffer
                end in
  match copied with
  | Some b => store b len zero
  | None => None
  end.

End Messages.

(** A call of [recordError]: domain, code, message and the pointer given. *)
Definition RecordCall : Type := (Z * Z * string * option C4Error)%type.

(** The buffer after a sequence of calls of [recordError]. *)
Fixpoint record_calls (calls : list RecordCall) (st : ErrorMessages) : ErrorMessages :=
  match calls with
  | [] => st
  | (domain, code, message, outError) :: rest =>
      record_calls rest (fst (recordError domain code message outError st))
  end.

(** The codes of a list that the loop of [errorIsInSet] can reach: those
    before the first 0. *)
Fixpoint listed_codes (pCode : CodeList) : list Z :=
  match pCode with
  | [] => []
  | c :: rest => if (c =? 0)%Z then [] else c :: listed_codes rest
  end.

(** The codes the two tables name, domain by domain. *)
Definition transient_posix (k : Platform) : list Z :=
  [ENETRESET k; ECONNABORTED k; ECONNRESET k; ETIMEDOUT k; ECONNREFUSED k].

Definition transient_websocket (k : Platform) : list Z :=
  [408; 429; 500; 502; 503; 504; kCodeGoingAway k]%Z.

Definition unreachable_posix (k : Platform) : list Z :=
  [ENETDOWN k; ENETUNREACH k; ENOTCONN k; ETIMEDOUT k]
  ++ (if MSC_VER k then [] else [EHOSTDOWN k])
  ++ [EHOSTUNREACH k; EADDRNOTAVAIL k].

(** None of the named codes is 0, the end mark of the lists. *)
Definition codes_nonzero (k : Platform) : Prop :=
  Forall (fun c => c <> 0%Z)
    (transient_posix k ++ unreachable_posix k
     ++ [kC4NetErrDNSFailure k; kC4NetErrUnknownHost k; kCodeGoingAway k]).

(** ** The rest of the controller interface ([c4Replicator.cc]) *)

(** The callback calls made along a sequence of notifications. *)
Fixpoint deliver_calls (c : C4Replicator) (ns : list Notification) : list CallbackCall :=
  match ns with
  | [] => []
  | (repl, newStatus) :: rest =>
      snd (replicatorStatusChanged c repl newStatus)
      ++ deliver_calls (fst (replicatorStatusChanged c repl newStatus)) rest
  end.

(** [release] of the RefCounted base; the object is destroyed when the count
    reaches 0. *)
Definition release (c : C4Replicator) : C4Replicator :=
  mkC4Replicator (_onStateChanged c) (_callbackContext c) (_replicator c)
    (_otherReplicator c) (_status c) (_otherLevel c) (_selfRetain c) (pred (refCount c)).

(** [stop]: the engine that is asked to stop. *)
Definition stop (c : C4Replicator) : ptr := _replicator c.

(** [c4repl_free]: nothing for a null pointer; otherwise the controller
    afterwards and the engine that was asked to stop. *)
Definition c4repl_free (repl : option C4Replicator) : option (C4Replicator * ptr) :=
  match repl with
  | None => None
  | Some c => Some (release (detach c), stop c)
  end.

Definition c4repl_getStatus (repl : C4Replicator) : C4ReplicatorStatus := status repl.

(** Whether a notification comes from the primary engine, or from the peer. *)
Definition from_primary (c : C4Replicator) (n : Notification) : bool :=
  fst n =? _replicator c.

Definition from_peer (c : C4Replicator) (n : Notification) : bool :=
  negb (fst n =? _replicator c)
  && match _otherReplicator c with
     | Some other => fst n =? other
     | None => false
     end.


(** The level of each engine after a sequence of notifications, read off the
    notifications themselves: the level of the engine's latest notification,
    or the level the controller took from the engine at construction. *)
Definition primary_level (c : C4Replicator) (ns : list Notification)
  : C4ReplicatorActivityLevel :=
  level (last (map snd (filter (from_primary c) ns)) (status c)).

Definition peer_level (c : C4Replicator) (ns : list Notification)
  : C4ReplicatorActivityLevel :=
  last (map (fun n => level (snd n)) (filter (from_peer c) ns)) (_otherLevel c).

(** The URL [scheme://host[:port]/name] with an optional closing slash. *)
Definition assemble (s host : list ascii) (digits : option (list ascii))
    (name tail : list ascii) : list ascii :=
  s ++ sl "://" ++ host ++ port_bytes digits ++ "/"%char :: name ++ tail.

(** * Properties *)

(** ** Slice operations *)

Lemma findByte_None (s : list ascii) (b : ascii) :
  findByte s b = None <-> ~ In b s.
Proof.
  induction s as [|c r IH]; simpl.
  - tauto.
  - destruct (Ascii.eqb_spec c b) as [->|Hne].
    + split; [discriminate | intros H; exfalso; apply H; now left].
    + destruct (findByte r b) eqn:E.
      * split; [discriminate|]. intros H. exfalso.
        assert (HN : ~ In b r) by tauto.
        apply IH in HN. discriminate.
      * split; [|reflexivity]. intros _ [Heq|Hin]; [congruence|].
        now apply (proj1 IH).
Qed.

Lemma findByte_Some_In (s : list ascii) (b : ascii) (i : nat) :
  findByte s b = Some i -> In b s.
Proof.
  intros H. destruct (in_dec ascii_dec b s) as [Hin|Hnot]; [exact Hin|].
  apply findByte_None in Hnot. congruence.
Qed.

Lemma findByteNotIn_None (s targetBytes : list ascii) :
  findByteNotIn s targetBytes = None <-> Forall (fun c => In c targetBytes) s.
Proof.
  induction s as [|c r IH]; simpl.
  - split; [constructor | reflexivity].
  - destruct (findByte targetBytes c) eqn:E.
    + apply findByte_Some_In in E.
      destruct (findByteNotIn r targetBytes) eqn:F.
      * split; [discriminate|]. intros H. inversion H; subst.
        apply IH in H3. discriminate.
      * split; [|reflexivity]. intros _. constructor; [assumption|]. now apply IH.
    + apply findByte_None in E. split; [discriminate|].
      intros H. inversion H; subst. contradiction.
Qed.

(** ** Database names *)

Lemma islower_spec (c : ascii) : islower c = true <-> lowercase_letter c.
Proof.
  unfold islower, lowercase_letter.
  rewrite andb_true_iff, !Nat.leb_le. tauto.
Qed.

Lemma name_digit_spec (c : ascii) : name_digit c = true <-> digit_char c.
Proof.
  unfold name_digit, digit_char.
  rewrite andb_true_iff, !Nat.leb_le. tauto.
Qed.

Lemma name_charb_spec (c : ascii) : name_charb c = true <-> name_char c.
Proof.
  unfold name_charb, name_char, name_punctuation.
  rewrite !orb_true_iff, islower_spec, name_digit_spec, existsb_exists.
  split.
  - intros [[H|H]|[x [Hin Heq]]]; auto.
    apply Ascii.eqb_eq in Heq. subst x. auto.
  - intros [H|[H|H]]; auto.
    right. exists c. split; [assumption | apply Ascii.eqb_refl].
Qed.

(** The 43 bytes of the source's literal are exactly the letters, digits and
    punctuation of the rule: checked on each of the 256 byte values. *)
Lemma charset_membership (c : ascii) :
  is_null (findByte kDatabaseNameBytes c) = negb (name_charb c).
Proof.
  destruct c as [[] [] [] [] [] [] [] []]; reflexivity.
Qed.

Lemma In_charset (c : ascii) : In c kDatabaseNameBytes <-> name_char c.
Proof.
  rewrite <- name_charb_spec.
  pose proof (charset_membership c) as H.
  destruct (findByte kDatabaseNameBytes c) eqn:E; simpl in H.
  - apply findByte_Some_In in E.
    destruct (name_charb c); [tauto | discriminate].
  - apply findByte_None in E.
    destruct (name_charb c); [discriminate|].
    split; [contradiction | discriminate].
Qed.

Lemma name_scan_spec (s : list ascii) :
  is_null (findByteNotIn s kDatabaseNameBytes) = true <-> Forall name_char s.
Proof.
  assert (HF : Forall name_char s <-> Forall (fun c => In c kDatabaseNameBytes) s).
  { rewrite !Forall_forall. split; intros H x Hx; apply In_charset; auto. }
  rewrite HF, <- findByteNotIn_None.
  destruct (findByteNotIn s kDatabaseNameBytes); simpl; split; congruence.
Qed.

Lemma first_is_lowercase_spec (s : list ascii) :
  0 < length s -> (islower (nth 0 s zero) = true <-> first_is_lowercase s).
Proof.
  intros Hlen. destruct s as [|c r]; [simpl in Hlen; lia|]. simpl.
  rewrite islower_spec. unfold first_is_lowercase. split.
  - intros H. now exists c, r.
  - intros [c' [r' [Heq H]]]. congruence.
Qed.

Lemma isValidDatabaseName_spec (dbName : slice) :
  c4repl_isValidDatabaseName dbName = true <-> valid_database_name (bytes dbName).
Proof.
  unfold c4repl_isValidDatabaseName, valid_database_name.
  rewrite !andb_true_iff, !Nat.ltb_lt, name_scan_spec.
  split.
  - intros [[[H0 H1] H2] H3]. repeat split; try assumption.
    now apply first_is_lowercase_spec.
  - intros [[H0 H1] [H2 H3]]. repeat split; try assumption.
    now apply first_is_lowercase_spec.
Qed.

(** C4. [c4repl_isValidDatabaseName] returns true exactly on the strings whose
    length is strictly between 0 and 240, whose first character is a lowercase
    ASCII letter and whose characters all belong to
    [a-z], [0-9] or [_ $ ( ) + - /]; a string that breaks the length rule, the
    first-character rule or the character-set rule is rejected. *)
Theorem isValidDatabaseName_iff_rules (dbName : slice) :
  (c4repl_isValidDatabaseName dbName = true <-> valid_database_name (bytes dbName))
  /\ (~ 0 < size dbName < 240 -> c4repl_isValidDatabaseName dbName = false)
  /\ (~ first_is_lowercase (bytes dbName) -> c4repl_isValidDatabaseName dbName = false)
  /\ (~ Forall name_char (bytes dbName) -> c4repl_isValidDatabaseName dbName = false).
Proof.
  pose proof (isValidDatabaseName_spec dbName) as H.
  unfold valid_database_name, size in *.
  split; [exact H|].
  repeat split; intros Hbad;
    destruct (c4repl_isValidDatabaseName dbName); try reflexivity;
    exfalso; apply Hbad; apply H; reflexivity.
Qed.

Lemma isValidDatabaseName_iff_rules_witness :
  c4repl_isValidDatabaseName (url "db_1/a(b)+c-$") = true
  /\ c4repl_isValidDatabaseName (url "") = false
  /\ c4repl_isValidDatabaseName (url "1db") = false
  /\ c4repl_isValidDatabaseName (url "db.x") = false.
Proof.
  split; [|split; [|split]].
  - destruct (isValidDatabaseName_iff_rules (url "db_1/a(b)+c-$")) as [H _].
    apply H. unfold valid_database_name. simpl bytes.
    split; [split; apply Nat.ltb_lt; reflexivity|]. split.
    + eexists. eexists. split; [reflexivity|]. apply islower_spec. reflexivity.
    + apply name_scan_spec. reflexivity.
  - destruct (isValidDatabaseName_iff_rules (url "")) as [_ [H _]].
    apply H. intros [Hpos _]. apply Nat.ltb_lt in Hpos. discriminate Hpos.
  - destruct (isValidDatabaseName_iff_rules (url "1db")) as [_ [_ [H _]]].
    apply H. intros [c [r [Heq Hc]]]. injection Heq as <- _.
    apply islower_spec in Hc. discriminate Hc.
  - destruct (isValidDatabaseName_iff_rules (url "db.x")) as [_ [_ [_ H]]].
    apply H. intros HF. apply name_scan_spec in HF. discriminate HF.
Defined.

(** ** URLs *)

Lemma findByteOrEnd_le (s : list ascii) (b : ascii) : findByteOrEnd s b <= length s.
Proof.
  unfold findByteOrEnd.
  induction s as [|c r IH]; simpl; [lia|].
  destruct (Ascii.eqb c b); [lia|].
  destruct (findByte r b); lia.
Qed.

Lemma findByteOrEnd_head (r : list ascii) (b : ascii) : findByteOrEnd (b :: r) b = 0.
Proof. unfold findByteOrEnd. simpl. now rewrite Ascii.eqb_refl. Qed.

Lemma findByteOrEnd_app (a r : list ascii) (b : ascii) :
  ~ In b a -> findByteOrEnd (a ++ r) b = length a + findByteOrEnd r b.
Proof.
  unfold findByteOrEnd.
  induction a as [|c a IH]; simpl; intros Hnot; [reflexivity|].
  destruct (Ascii.eqb_spec c b) as [->|Hne]; [exfalso; auto|].
  assert (Hnot' : ~ In b a) by tauto.
  specialize (IH Hnot').
  destruct (findByte (a ++ r) b), (findByte r b); lia.
Qed.

Lemma findByteOrEnd_path (p : list ascii) : path_shaped p -> findByteOrEnd p "/" = 0.
Proof.
  intros [->|[body ->]]; [reflexivity | apply findByteOrEnd_head].
Qed.

Lemma between_prefix (a r : list ascii) : between (a ++ r) 0 (length a) = a.
Proof.
  unfold between. simpl. rewrite Nat.sub_0_r.
  rewrite firstn_app, Nat.sub_diag, firstn_all. simpl. apply app_nil_r.
Qed.

Lemma between_middle (a p r : list ascii) (c : ascii) :
  between (a ++ c :: p ++ r) (length a + 1) (length a + S (length p)) = p.
Proof.
  unfold between.
  replace (length a + S (length p) - (length a + 1)) with (length p) by lia.
  replace (a ++ c :: p ++ r) with ((a ++ [c]) ++ p ++ r)
    by (rewrite <- app_assoc; reflexivity).
  replace (length a + 1) with (length (a ++ [c]))
    by (rewrite length_app; reflexivity).
  rewrite skipn_app, skipn_all, Nat.sub_diag. simpl.
  rewrite firstn_app, Nat.sub_diag, firstn_all. simpl. apply app_nil_r.
Qed.

Lemma setStart_app (a r : list ascii) : setStart (a ++ r) (length a) = r.
Proof.
  unfold setStart. rewrite skipn_app, skipn_all, Nat.sub_diag. reflexivity.
Qed.

Lemma slice_eqb_eq (a b : list ascii) : slice_eqb a b = true <-> a = b.
Proof.
  revert b. induction a as [|x a IH]; intros [|y b]; simpl;
    try (split; [discriminate | congruence]).
  - tauto.
  - rewrite andb_true_iff, Ascii.eqb_eq, IH. split.
    + intros [-> ->]. reflexivity.
    + intros H. injection H. auto.
Qed.

Lemma isValidScheme_In (s : slice) :
  isValidScheme s = true <-> In (bytes s) kValidSchemes.
Proof.
  unfold isValidScheme. rewrite existsb_exists. split.
  - intros [x [Hin Heq]]. apply slice_eqb_eq in Heq. now subst.
  - intros Hin. exists (bytes s). split; [assumption | now apply slice_eqb_eq].
Qed.

(** The scheme piece: a valid scheme followed by ["://"] is consumed, and the
    address carries the scheme and its default port into the next piece. *)
Lemma parseURL_scheme (s rest : list ascii) (address : C4Address) (dbName : slice) :
  In s kValidSchemes ->
  c4repl_parseURL (Slice (s ++ sl "://" ++ rest)) address dbName
  = parseURL_authority rest
      (set_port (set_scheme address (Slice s)) (default_port s)) dbName.
Proof.
  intros [<-|[<-|[<-|[<-|[]]]]]; reflexivity.
Qed.

Lemma authority_no_port (host p : list ascii) (address : C4Address) (dbName : slice) :
  ~ In ":"%char host -> ~ In "/"%char host -> path_shaped p ->
  parseURL_authority (host ++ p) address dbName
  = parseURL_path p (set_hostname address (Slice host)) dbName.
Proof.
  intros Hcolon Hslash Hp. unfold parseURL_authority.
  rewrite !findByteOrEnd_app by assumption.
  rewrite (findByteOrEnd_path p Hp), Nat.add_0_r.
  replace (length host + findByteOrEnd p ":" <? length host) with false
    by (symmetry; apply Nat.ltb_ge; lia).
  now rewrite between_prefix, setStart_app.
Qed.

Lemma authority_port (host digits p : list ascii) (address : C4Address) (dbName : slice) :
  ~ In ":"%char host -> ~ In "/"%char host -> ~ In "/"%char digits -> path_shaped p ->
  parseURL_authority (host ++ ":"%char :: digits ++ p) address dbName
  = match stoi digits with
    | Some n =>
        if ((n <? 0) || (n >? 65535))%Z then (false, address, dbName)
        else parseURL_path p
               (set_hostname (set_port address (to_uint16 n)) (Slice host)) dbName
    | None => (false, address, dbName)
    end.
Proof.
  intros Hcolon Hslash Hdigits Hp. unfold parseURL_authority.
  rewrite (findByteOrEnd_app host _ _ Hcolon), findByteOrEnd_head, Nat.add_0_r.
  rewrite (findByteOrEnd_app host _ _ Hslash).
  change (":"%char :: digits ++ p) with ((":"%char :: digits) ++ p).
  rewrite findByteOrEnd_app
    by (intros [H|H]; [discriminate | contradiction]).
  rewrite (findByteOrEnd_path p Hp), Nat.add_0_r. simpl length.
  replace (length host <? length host + S (length digits)) with true
    by (symmetry; apply Nat.ltb_lt; lia).
  simpl app. rewrite between_middle.
  destruct (stoi digits) as [n|]; [|reflexivity].
  destruct ((n <? 0) || (n >? 65535))%Z; [reflexivity|].
  rewrite between_prefix.
  replace (host ++ ":"%char :: digits ++ p) with ((host ++ ":"%char :: digits) ++ p)
    by (rewrite <- app_assoc; reflexivity).
  replace (length host + S (length digits)) with (length (host ++ ":"%char :: digits))
    by (rewrite length_app; reflexivity).
  now rewrite setStart_app.
Qed.

Lemma parseURL_path_empty (address : C4Address) (dbName : slice) :
  parseURL_path [] address dbName = (false, address, dbName).
Proof. reflexivity. Qed.

Lemma parseURL_path_slash (body : list ascii) (address : C4Address) (dbName : slice) :
  parseURL_path ("/"%char :: body) address dbName
  = (c4repl_isValidDatabaseName (Slice (strip_trailing_slash body)),
     set_path address (Slice (sl "/")),
     Slice (strip_trailing_slash body)).
Proof. reflexivity. Qed.

(** The anatomy of a URL [scheme://host[:port]path]: what [c4repl_parseURL]
    does on it, piece by piece. *)
Lemma parseURL_anatomy (s host p : list ascii) (digits : option (list ascii))
    (address : C4Address) (dbName : slice) :
  In s kValidSchemes ->
  ~ In ":"%char host -> ~ In "/"%char host ->
  (forall d, digits = Some d -> ~ In "/"%char d) ->
  path_shaped p ->
  c4repl_parseURL (Slice (s ++ sl "://" ++ host ++ port_bytes digits ++ p)) address dbName
  = match port_number s digits with
    | Some n =>
        parseURL_path p (mkC4Address (Slice s) (Slice host) n (path address)) dbName
    | None =>
        (false, mkC4Address (Slice s) (hostname address) (default_port s) (path address),
         dbName)
    end.
Proof.
  intros Hs Hcolon Hslash Hdigits Hp.
  rewrite (parseURL_scheme s _ address dbName Hs).
  destruct digits as [d|]; simpl port_bytes; simpl port_number.
  - change ((":"%char :: d) ++ p) with (":"%char :: d ++ p).
    rewrite authority_port; auto.
    destruct (stoi d) as [n|]; [|reflexivity].
    destruct ((n <? 0) || (n >? 65535))%Z; reflexivity.
  - simpl app. rewrite authority_no_port; auto.
Qed.

Lemma hasSuffix_slash (name : list ascii) :
  hasSuffix (name ++ sl "/") (sl "/") = true.
Proof.
  unfold hasSuffix. rewrite length_app. simpl length.
  replace (length name + 1 - 1) with (length name) by lia.
  rewrite skipn_app, skipn_all, Nat.sub_diag.
  replace (1 <=? length name + 1) with true
    by (symmetry; apply Nat.leb_le; lia).
  reflexivity.
Qed.

Lemma strip_trailing_slash_app (name : list ascii) :
  strip_trailing_slash (name ++ sl "/") = name.
Proof.
  unfold strip_trailing_slash, setSize. rewrite hasSuffix_slash, length_app.
  simpl length. replace (length name + 1 - 1) with (length name) by lia.
  rewrite firstn_app, Nat.sub_diag, firstn_all. simpl. apply app_nil_r.
Qed.

Lemma to_uint16_id (n : Z) : (0 <= n <= 65535)%Z -> to_uint16 n = n.
Proof. intros H. unfold to_uint16. apply Z.mod_small. lia. Qed.

Lemma port_in_range (n : Z) :
  ((n <? 0) || (n >? 65535))%Z = false <-> (0 <= n <= 65535)%Z.
Proof.
  rewrite orb_false_iff, Z.ltb_ge, Z.gtb_ltb, Z.ltb_ge. tauto.
Qed.

(** The default port the source computes for each valid scheme. *)
Lemma default_port_values :
  default_port (sl "ws") = 443%Z /\ default_port (sl "wss") = 443%Z
  /\ default_port (sl "blip") = 80%Z /\ default_port (sl "blips") = 443%Z.
Proof. repeat split. Qed.

(** One trailing slash of the path is dropped from the database name. *)
Lemma parseURL_trailing_slash (s host name : list ascii) (digits : option (list ascii))
    (address : C4Address) (dbName : slice) (n : Z) :
  In s kValidSchemes ->
  ~ In ":"%char host -> ~ In "/"%char host ->
  (forall d, digits = Some d -> ~ In "/"%char d) ->
  port_number s digits = Some n ->
  c4repl_parseURL
    (Slice (s ++ sl "://" ++ host ++ port_bytes digits ++ "/"%char :: name ++ sl "/"))
    address dbName
  = (c4repl_isValidDatabaseName (Slice name),
     mkC4Address (Slice s) (Slice host) n (Slice (sl "/")), Slice name).
Proof.
  intros Hs Hc Hsl Hd Hport.
  rewrite parseURL_anatomy; auto.
  - rewrite Hport, parseURL_path_slash, strip_trailing_slash_app. reflexivity.
  - right. eexists. reflexivity.
Qed.

Lemma parseURL_wss_explicit_port :
  c4repl_parseURL (url "wss://host:1234/dbname/") kAddressUnset nullslice
  = (true, mkC4Address (url "wss") (url "host") 1234 (url "/"), url "dbname").
Proof. reflexivity. Qed.

(** *** [std::stoi] on integer literals *)

Lemma isdigit_not_space (c : ascii) : isdigit c = true -> isspace c = false.
Proof.
  unfold isdigit, isspace. rewrite andb_true_iff, !Nat.leb_le. intros [H1 H2].
  apply orb_false_iff. split.
  - apply Nat.eqb_neq. lia.
  - apply andb_false_iff. right. apply Nat.leb_gt. lia.
Qed.

Lemma isdigit_not_sign (c : ascii) :
  isdigit c = true -> Ascii.eqb c "-" = false /\ Ascii.eqb c "+" = false.
Proof.
  intros H. split; apply Ascii.eqb_neq; intros ->; discriminate.
Qed.

Lemma all_digits_head (s : list ascii) :
  all_digits s = true -> starts_with_digit s = true.
Proof.
  unfold all_digits. destruct s as [|c r]; simpl; [discriminate|].
  now intros H%andb_prop.
Qed.



(** On a literal (optional sign, digits, nothing else) [std::stoi] returns the
    value the literal denotes, or throws when it does not fit an [int]. *)
Lemma stoi_integer_literal (s : list ascii) (n : Z) :
  integer_literal s = Some n ->
  stoi s = if in_int_range n then Some n else None.
Proof.
  unfold integer_literal, stoi, in_int_range.
  destruct s as [|c r]; [discriminate|].
  destruct (Ascii.eqb_spec c "-") as [->|Hminus].
  - destruct (all_digits r) eqn:E; [|discriminate]. intros [= <-].
    simpl skip_spaces. simpl. now rewrite (all_digits_head r E).
  - destruct (Ascii.eqb_spec c "+") as [->|Hplus].
    + destruct (all_digits r) eqn:E; [|discriminate]. intros [= <-].
      simpl skip_spaces. simpl. now rewrite (all_digits_head r E).
    + destruct (all_digits (c :: r)) eqn:E; [|discriminate]. intros [= <-].
      pose proof (all_digits_head _ E) as Hd. simpl in Hd.
      simpl skip_spaces. rewrite (isdigit_not_space c Hd).
      destruct (isdigit_not_sign c Hd) as [-> ->].
      simpl starts_with_digit. rewrite Hd. simpl read_digits. rewrite ?Hd. reflexivity.
Qed.

(** *** Outputs on failure *)







(** *** Explicit ports *)

(** C3. The code does not do what the claim says, although it means to: the
    conversion of the port is guarded by [try] and by a range test (lines
    174-181), but [std::stoi] stops at the first byte that is not a digit and
    nothing checks that the whole substring was read.  The port substring
    ["12ab"] is not an integer, and ["blip://host:12ab/db"] parses, with port
    12. *)
Lemma parseURL_accepts_port_with_trailing_bytes :
  c4repl_parseURL (url "blip://host:12ab/db") kAddressUnset nullslice
  = (true, mkC4Address (url "blip") (url "host") 12 (url "/"), url "db")
  /\ integer_literal (sl "12ab") = None
  /\ ~ (forall (s host digits p : list ascii) (a : C4Address) (d : slice),
         In s kValidSchemes ->
         ~ In ":"%char host -> ~ In "/"%char host -> ~ In "/"%char digits ->
         path_shaped p ->
         parse_ok (c4repl_parseURL
                     (Slice (s ++ sl "://" ++ host ++ ":"%char :: digits ++ p)) a d) = true ->
         exists n, integer_literal digits = Some n /\ (0 <= n <= 65535)%Z).
Proof.
  split; [reflexivity|]. split; [reflexivity|].
  intros H.
  destruct (H (sl "blip") (sl "host") (sl "12ab") (sl "/db") kAddressUnset nullslice)
    as [n [Hn _]].
  - simpl. tauto.
  - intros G. simpl in G. repeat destruct G as [G|G]; try discriminate G. exact G.
  - intros G. simpl in G. repeat destruct G as [G|G]; try discriminate G. exact G.
  - intros G. simpl in G. repeat destruct G as [G|G]; try discriminate G. exact G.
  - right. eexists. reflexivity.
  - reflexivity.
  - discriminate Hn.
Qed.

(** What the code does with an explicit port: [c4repl_parseURL] succeeds only
    if [std::stoi] converts the port substring (optional white space and
    sign, then the leading decimal digits; what follows the digits is ignored)
    to an integer in [0, 65535], which becomes the port.  It fails when there
    is no such leading number or when the number is out of range; and when the
    substring is an integer literal and nothing else, success means that the
    literal's value is in [0, 65535], as the claim has it. *)
Theorem parseURL_explicit_port
    (s host digits p : list ascii) (a : C4Address) (d : slice) :
  In s kValidSchemes ->
  ~ In ":"%char host -> ~ In "/"%char host -> ~ In "/"%char digits ->
  path_shaped p ->
  let r := c4repl_parseURL
             (Slice (s ++ sl "://" ++ host ++ ":"%char :: digits ++ p)) a d in
  (parse_ok r = true ->
   exists n, stoi digits = Some n /\ (0 <= n <= 65535)%Z /\ port (parse_address r) = n)
  /\ (stoi digits = None -> parse_ok r = false)
  /\ (forall n, stoi digits = Some n -> (n < 0 \/ 65535 < n)%Z -> parse_ok r = false)
  /\ (forall n, integer_literal digits = Some n -> parse_ok r = true ->
      (0 <= n <= 65535)%Z /\ port (parse_address r) = n).
Proof.
  intros Hs Hc Hsl Hd Hp r.
  assert (E : r = match port_number s (Some digits) with
                  | Some n => parseURL_path p (mkC4Address (Slice s) (Slice host) n (path a)) d
                  | None => (false, mkC4Address (Slice s) (hostname a) (default_port s) (path a), d)
                  end).
  { subst r. apply (parseURL_anatomy s host p (Some digits) a d Hs Hc Hsl); auto.
    intros d0 [= <-]. exact Hd. }
  simpl port_number in E.
  assert (Hport : forall n, port (parse_address
             (parseURL_path p (mkC4Address (Slice s) (Slice host) n (path a)) d)) = n).
  { intros n. unfold parseURL_path. destruct (length p =? 0); reflexivity. }
  assert (Main : parse_ok r = true ->
            exists n, stoi digits = Some n /\ (0 <= n <= 65535)%Z
                      /\ port (parse_address r) = n).
  { intros Hok. rewrite E in *. destruct (stoi digits) as [n|]; [|discriminate Hok].
    destruct ((n <? 0) || (n >? 65535))%Z eqn:R; [discriminate Hok|].
    apply port_in_range in R. exists n. repeat split; try lia.
    rewrite Hport. now apply to_uint16_id. }
  split; [exact Main|]. split; [|split].
  - intros Hnone. rewrite E, Hnone. reflexivity.
  - intros n Hn Hout. rewrite E, Hn.
    destruct ((n <? 0) || (n >? 65535))%Z eqn:R; [reflexivity|].
    apply port_in_range in R. lia.
  - intros n Hlit Hok. destruct (Main Hok) as [m [Hm [Hrange Hpm]]].
    rewrite (stoi_integer_literal digits n Hlit) in Hm.
    destruct (in_int_range n); [|discriminate Hm].
    injection Hm as <-. tauto.
Qed.

Lemma parseURL_explicit_port_witness :
  let r := c4repl_parseURL
             (Slice (sl "ws" ++ sl "://" ++ sl "host" ++ ":"%char :: sl "4984" ++ sl "/db"))
             kAddressUnset nullslice in
  parse_ok r = true /\ port (parse_address r) = 4984%Z.
Proof.
  assert (Hs : In (sl "ws") kValidSchemes) by (simpl; tauto).
  assert (Hc : ~ In ":"%char (sl "host"))
    by (intros G; simpl in G; repeat destruct G as [G|G]; try discriminate G; exact G).
  assert (Hsl : ~ In "/"%char (sl "host"))
    by (intros G; simpl in G; repeat destruct G as [G|G]; try discriminate G; exact G).
  assert (Hd : ~ In "/"%char (sl "4984"))
    by (intros G; simpl in G; repeat destruct G as [G|G]; try discriminate G; exact G).
  assert (Hp : path_shaped (sl "/db")) by (right; eexists; reflexivity).
  pose proof (parseURL_explicit_port (sl "ws") (sl "host") (sl "4984") (sl "/db")
                kAddressUnset nullslice Hs Hc Hsl Hd Hp) as [_ [_ [_ H]]].
  intros r. split; [reflexivity|].
  apply (H 4984%Z); reflexivity.
Defined.

(** *** Default ports *)

(** C9. The claim holds for the schemes [wss], [blips] and [blip] and for the
    trailing slash, but not for [ws]: the source tests the last byte of the
    scheme for ['s'], which ["ws"] ends with, so ["ws://host/dbname"] gets
    port 443 and not 80. *)
Theorem parseURL_ws_default_port :
  c4repl_parseURL (url "ws://host/dbname") kAddressUnset nullslice
  = (true, mkC4Address (url "ws") (url "host") 443 (url "/"), url "dbname").
Proof. reflexivity. Qed.

(** *** Empty host *)

(** C10. A URL with a valid scheme, nothing between ["://"] and the first
    slash, and a valid database name as its path segment parses, and the
    hostname of the address is the empty string. *)
Theorem parseURL_empty_host (s body : list ascii) (a : C4Address) (d : slice) :
  In s kValidSchemes ->
  c4repl_isValidDatabaseName (Slice (strip_trailing_slash body)) = true ->
  let r := c4repl_parseURL (Slice (s ++ sl "://" ++ "/"%char :: body)) a d in
  parse_ok r = true
  /\ hostname (parse_address r) = Slice []
  /\ scheme (parse_address r) = Slice s
  /\ parse_dbName r = Slice (strip_trailing_slash body).
Proof.
  intros Hs Hname.
  pose proof (parseURL_anatomy s [] ("/"%char :: body) None a d Hs) as E.
  cbn [port_bytes port_number app] in E.
  rewrite E.
  - rewrite parseURL_path_slash, Hname. repeat split.
  - intros [].
  - intros [].
  - discriminate.
  - right. now exists body.
Qed.

Lemma parseURL_empty_host_witness :
  let r := c4repl_parseURL (Slice (sl "blips" ++ sl "://" ++ "/"%char :: sl "db/"))
             kAddressUnset nullslice in
  parse_ok r = true
  /\ hostname (parse_address r) = Slice []
  /\ scheme (parse_address r) = url "blips"
  /\ parse_dbName r = url "db".
Proof.
  apply (parseURL_empty_host (sl "blips") (sl "db/") kAddressUnset nullslice).
  - simpl. tauto.
  - reflexivity.
Defined.

(** ** The buffer of recent error messages *)

Lemma to_uint32_range (z : Z) : (0 <= to_uint32 z < 2 ^ 32)%Z.
Proof. unfold to_uint32. apply Z.mod_pos_bound. lia. Qed.

Lemma to_uint32_small (z : Z) : (0 <= z < 2 ^ 32)%Z -> to_uint32 z = z.
Proof. intros H. unfold to_uint32. now apply Z.mod_small. Qed.

Lemma to_uint32_add_l (x y : Z) : to_uint32 (to_uint32 x + y) = to_uint32 (x + y).
Proof. unfold to_uint32. apply Zplus_mod_idemp_l. Qed.

Lemma to_uint32_sub (x y : Z) :
  to_uint32 (to_uint32 x - to_uint32 y) = to_uint32 (x - y).
Proof. unfold to_uint32. now rewrite Zminus_mod_idemp_l, Zminus_mod_idemp_r. Qed.

(** A token [k] places after the first one addresses entry [k]. *)
Lemma lookup_in_window (st : ErrorMessages) (e : C4Error) (k : nat) :
  k < length (sErrorMessages st) ->
  length (sErrorMessages st) <= kMaxErrorMessagesToSave ->
  to_uint32 (token e - sFirstErrorMessageInternalInfo st) = Z.of_nat k ->
  lookupErrorMessage e st = nth k (sErrorMessages st) EmptyString.
Proof.
  intros Hk Hlen Hoff. unfold lookupErrorMessage, token in *. rewrite Hoff.
  unfold kMaxErrorMessagesToSave in Hlen.
  assert (Hint : to_int32 (Z.of_nat k) = Z.of_nat k).
  { unfold to_int32. rewrite Z.mod_small; lia. }
  rewrite Hint, Nat2Z.id.
  replace (0 <=? Z.of_nat k)%Z with true by (symmetry; apply Z.leb_le; lia).
  replace (Z.of_nat k <? Z.of_nat (length (sErrorMessages st)))%Z with true
    by (symmetry; apply Z.ltb_lt; lia).
  reflexivity.
Qed.

(** The token just below the first one is outside the window. *)
Lemma lookup_below_window (st : ErrorMessages) (e : C4Error) :
  to_uint32 (token e - sFirstErrorMessageInternalInfo st) = (2 ^ 32 - 1)%Z ->
  lookupErrorMessage e st = EmptyString.
Proof.
  intros Hoff. unfold lookupErrorMessage, token in *. rewrite Hoff. reflexivity.
Qed.

Lemma nonempty_not_empty (m : string) : nonempty m -> string_empty m = false.
Proof. destruct m; [intros H; now elim H | reflexivity]. Qed.

(** One recorded message: the deque after the push and the possible pop, the
    first token, and the token handed out. *)
Lemma c4error_make_step (domain code : Z) (m : string) (st : ErrorMessages) :
  nonempty m -> buffer_ok st ->
  let n := length (sErrorMessages st) + 1 - kMaxErrorMessagesToSave in
  let r := c4error_make domain code m st in
  sErrorMessages (fst r) = skipn n (sErrorMessages st ++ [m])
  /\ sFirstErrorMessageInternalInfo (fst r)
     = to_uint32 (sFirstErrorMessageInternalInfo st + Z.of_nat n)
  /\ token (snd r)
     = to_uint32 (sFirstErrorMessageInternalInfo st
                  + Z.of_nat (length (sErrorMessages st)))
  /\ buffer_ok (fst r).
Proof.
  intros Hm [Hfirst Hlen]. unfold kMaxErrorMessagesToSave in *.
  unfold c4error_make, recordError. rewrite (nonempty_not_empty m Hm).
  unfold kMaxErrorMessagesToSave. rewrite length_app. simpl length.
  destruct (10 <? length (sErrorMessages st) + 1) eqn:E.
  - apply Nat.ltb_lt in E.
    assert (H10 : length (sErrorMessages st) = 10) by lia.
    rewrite H10. simpl fst. simpl snd. unfold token. simpl.
    destruct (sErrorMessages st ++ [m]) as [|x l] eqn:El.
    { apply (f_equal (@length string)) in El. rewrite length_app in El.
      simpl in El. lia. }
    assert (Hl : length l = 10).
    { apply (f_equal (@length string)) in El. rewrite length_app in El.
      simpl in El. lia. }
    simpl. rewrite Hl. split; [reflexivity|]. split; [reflexivity|]. split.
    + replace (to_uint32 (sFirstErrorMessageInternalInfo st + 1) + Z.of_nat 10 - 1)%Z
        with (to_uint32 (sFirstErrorMessageInternalInfo st + 1) + 9)%Z by lia.
      rewrite to_uint32_add_l. f_equal. lia.
    + split; simpl; [apply to_uint32_range | unfold kMaxErrorMessagesToSave; lia].
  - apply Nat.ltb_ge in E.
    replace (length (sErrorMessages st) + 1 - 10) with 0 by lia.
    simpl fst. simpl snd. unfold token. simpl.
    rewrite length_app. simpl length. rewrite Z.add_0_r.
    split; [reflexivity|]. split; [now rewrite to_uint32_small|]. split.
    + f_equal. lia.
    + split; simpl; [assumption | unfold kMaxErrorMessagesToSave; rewrite length_app; simpl; lia].
Qed.

(** A run of recorded messages: what is left in the deque, where the window
    begins, and the tokens handed out, one after the other. *)
Lemma record_all_spec (domain code : Z) (ms : list string) :
  forall st : ErrorMessages,
  Forall nonempty ms -> buffer_ok st ->
  let total := length (sErrorMessages st) + length ms in
  let r := record_all domain code ms st in
  sErrorMessages (fst r)
    = skipn (total - kMaxErrorMessagesToSave) (sErrorMessages st ++ ms)
  /\ sFirstErrorMessageInternalInfo (fst r)
     = to_uint32 (sFirstErrorMessageInternalInfo st
                  + Z.of_nat (total - kMaxErrorMessagesToSave))
  /\ length (snd r) = length ms
  /\ (forall i, i < length ms ->
      token (nth i (snd r) kNoError)
      = to_uint32 (sFirstErrorMessageInternalInfo st
                   + Z.of_nat (length (sErrorMessages st) + i)))
  /\ buffer_ok (fst r).
Proof.
  induction ms as [|m rest IH]; intros st Hne Hok.
  - simpl. rewrite Nat.add_0_r, app_nil_r.
    destruct Hok as [Hfirst Hlen].
    replace (length (sErrorMessages st) - kMaxErrorMessagesToSave) with 0 by lia.
    simpl. rewrite Z.add_0_r, to_uint32_small by assumption.
    split; [reflexivity|]. split; [reflexivity|]. split; [reflexivity|].
    split; [intros i Hi; lia | split; assumption].
  - inversion Hne as [|? ? Hm Hrest]; subst.
    pose proof (c4error_make_step domain code m st Hm Hok) as Hstep.
    simpl in Hstep. simpl record_all.
    destruct (c4error_make domain code m st) as [st1 e] eqn:E1.
    simpl in Hstep. destruct Hstep as [Hmsgs [Hfirst [Htok Hok1]]].
    specialize (IH st1 Hrest Hok1). simpl in IH.
    destruct (record_all domain code rest st1) as [st2 es] eqn:E2.
    simpl in IH. destruct IH as [IHm [IHf [IHl [IHt IHok]]]].
    destruct Hok as [Hf0 Hlen0]. unfold kMaxErrorMessagesToSave in *.
    set (len0 := length (sErrorMessages st)) in *.
    assert (Hlen1 : length (sErrorMessages st1) = len0 + 1 - (len0 + 1 - 10)).
    { rewrite Hmsgs, length_skipn, length_app. simpl. fold len0. lia. }
    simpl. split; [|split; [|split; [|split]]].
    + rewrite IHm, Hlen1, Hmsgs.
      replace (sErrorMessages st ++ m :: rest)
        with ((sErrorMessages st ++ [m]) ++ rest)
        by (rewrite <- app_assoc; reflexivity).
      assert (Hcase : len0 + 1 - 10 = 0 \/ (len0 = 10 /\ len0 + 1 - 10 = 1)) by lia.
      destruct Hcase as [H0|[H10 H1]].
      * rewrite H0. simpl skipn. f_equal. lia.
      * rewrite H1.
        destruct (sErrorMessages st ++ [m]) as [|x l] eqn:El.
        { apply (f_equal (@length string)) in El. rewrite length_app in El.
          simpl in El. lia. }
        simpl skipn at 2. simpl app.
        replace (len0 + S (length rest) - 10) with (S (length rest)) by lia.
        replace (len0 + 1 - 1 + length rest - 10) with (length rest) by lia.
        reflexivity.
    + rewrite IHf, Hlen1, Hfirst, to_uint32_add_l. f_equal. lia.
    + now rewrite IHl.
    + intros [|i] Hi.
      * simpl. rewrite Htok. f_equal. lia.
      * simpl. rewrite IHt by lia. rewrite Hlen1, Hfirst, to_uint32_add_l.
        f_equal. lia.
    + exact IHok.
Qed.

(** From the initial buffer the tokens are 1000, 1001, ... *)
Example first_tokens :
  map token (snd (record_all 1 2 ["a"; "b"; "c"]%string kInitialErrorMessages))
  = [1000; 1001; 1002]%Z.
Proof. reflexivity. Qed.

(** An empty message is not stored and gets the token 0. *)
Example empty_message_token :
  c4error_make 1 2 EmptyString kInitialErrorMessages
  = (kInitialErrorMessages, mkC4Error 1 2 0).
Proof. reflexivity. Qed.

Lemma buffer_ok_initial : buffer_ok kInitialErrorMessages.
Proof. split; simpl; [lia | unfold kMaxErrorMessagesToSave; lia]. Qed.

(** [recordError] keeps the buffer within its bounds, whatever it is given. *)
Lemma recordError_buffer_ok (domain code : Z) (m : string) (outError : option C4Error)
    (st : ErrorMessages) :
  buffer_ok st -> buffer_ok (fst (recordError domain code m outError st)).
Proof.
  intros Hok. destruct outError as [e|]; [|exact Hok].
  destruct m as [|c m'] eqn:Em; [exact Hok|].
  assert (Hne : nonempty (String c m')) by discriminate.
  pose proof (c4error_make_step domain code (String c m') st Hne Hok) as H.
  simpl in H. unfold c4error_make in H.
  destruct (recordError domain code (String c m') (Some kNoError) st) as [st1 [e1|]] eqn:E;
    unfold kNoError in E; unfold recordError in *; simpl in *;
    destruct (kMaxErrorMessagesToSave <? length (sErrorMessages st ++ [String c m']));
    injection E as <- ?; apply H.
Qed.

Lemma skipn_past_first (A : Type) (old ms : list A) :
  skipn (length old + 1) (old ++ ms) = skipn 1 ms.
Proof.
  rewrite skipn_app.
  rewrite skipn_all2 by lia.
  replace (length old + 1 - length old) with 1 by lia. reflexivity.
Qed.

(** C5. After eleven errors with non-empty messages have been recorded, the
    buffer holds ten messages; the token of the first of the eleven no longer
    resolves (the lookup gives the empty string), while the token of each of
    the last ten resolves to the message recorded with it.  The tokens follow
    one another by steps of one (modulo 2^32), and so increase strictly as long
    as they stay below 2^32. *)
Theorem error_buffer_keeps_last_ten
    (domain code : Z) (ms : list string) (st : ErrorMessages) :
  buffer_ok st -> length ms = 11 -> Forall nonempty ms ->
  let st' := fst (record_all domain code ms st) in
  let es := snd (record_all domain code ms st) in
  length (sErrorMessages st') = kMaxErrorMessagesToSave
  /\ lookupErrorMessage (nth 0 es kNoError) st' = EmptyString
  /\ (forall i, 1 <= i <= 10 ->
      lookupErrorMessage (nth i es kNoError) st' = nth i ms EmptyString)
  /\ (forall i, i <= 10 ->
      token (nth i es kNoError) = to_uint32 (token (nth 0 es kNoError) + Z.of_nat i))
  /\ ((token (nth 0 es kNoError) + 10 < 2 ^ 32)%Z ->
      forall i j, i < j <= 10 ->
      (token (nth i es kNoError) < token (nth j es kNoError))%Z).
Proof.
  intros Hok Hlen Hne st' es.
  destruct (record_all_spec domain code ms st Hne Hok) as [Hm [Hf [Hl [Ht Hok']]]].
  fold st' in Hm, Hf, Hok'. fold es in Hl, Ht.
  destruct Hok as [Hfirst Hlen0]. unfold kMaxErrorMessagesToSave in *.
  set (len0 := length (sErrorMessages st)) in *.
  set (first0 := sFirstErrorMessageInternalInfo st) in *.
  rewrite Hlen in *.
  replace (len0 + 11 - 10) with (len0 + 1) in Hm, Hf by lia.
  unfold len0 in Hm. rewrite skipn_past_first in Hm. fold len0 in Hm.
  assert (Hsize : length (sErrorMessages st') = 10).
  { rewrite Hm, length_skipn. lia. }
  assert (Htok : forall i, i <= 10 ->
            token (nth i es kNoError) = to_uint32 (first0 + Z.of_nat len0 + Z.of_nat i)).
  { intros i Hi. rewrite Ht by lia. f_equal. lia. }
  split; [exact Hsize|]. split; [|split; [|split]].
  - apply lookup_below_window.
    rewrite (Htok 0) by lia. rewrite Hf, to_uint32_sub.
    replace (first0 + Z.of_nat len0 + Z.of_nat 0 - (first0 + Z.of_nat (len0 + 1)))%Z
      with (-1)%Z by lia.
    reflexivity.
  - intros i Hi.
    rewrite (lookup_in_window st' (nth i es kNoError) (i - 1)).
    + rewrite Hm. destruct ms as [|m0 ms']; [discriminate Hlen|].
      simpl skipn. destruct i as [|i]; [lia|].
      simpl. now rewrite Nat.sub_0_r.
    + lia.
    + unfold kMaxErrorMessagesToSave. lia.
    + rewrite (Htok i) by lia. rewrite Hf, to_uint32_sub.
      replace (first0 + Z.of_nat len0 + Z.of_nat i - (first0 + Z.of_nat (len0 + 1)))%Z
        with (Z.of_nat (i - 1)) by lia.
      apply to_uint32_small. lia.
  - intros i Hi. rewrite (Htok i Hi), (Htok 0) by lia.
    rewrite to_uint32_add_l. f_equal. lia.
  - intros Hnowrap i j Hij.
    rewrite (Htok 0) in Hnowrap by lia.
    assert (Hbase : (0 <= first0 + Z.of_nat len0 + Z.of_nat 0
                     - 2 ^ 32 * ((first0 + Z.of_nat len0 + Z.of_nat 0) / 2 ^ 32)
                     < 2 ^ 32)%Z).
    { rewrite <- Z.mod_eq by lia. apply Z.mod_pos_bound. lia. }
    assert (Hshift : forall k, k <= 10 ->
              token (nth k es kNoError)
              = (to_uint32 (first0 + Z.of_nat len0 + Z.of_nat 0) + Z.of_nat k)%Z).
    { intros k Hk. rewrite (Htok k Hk).
      rewrite <- (to_uint32_small
                    (to_uint32 (first0 + Z.of_nat len0 + Z.of_nat 0) + Z.of_nat k)).
      - rewrite to_uint32_add_l. f_equal. lia.
      - pose proof (to_uint32_range (first0 + Z.of_nat len0 + Z.of_nat 0)). lia. }
    rewrite (Hshift i), (Hshift j) by lia. lia.
Qed.

Lemma error_buffer_keeps_last_ten_witness :
  let ms := ["m0"; "m1"; "m2"; "m3"; "m4"; "m5"; "m6"; "m7"; "m8"; "m9"; "m10"]%string in
  let st' := fst (record_all 1 2 ms kInitialErrorMessages) in
  let es := snd (record_all 1 2 ms kInitialErrorMessages) in
  lookupErrorMessage (nth 0 es kNoError) st' = EmptyString
  /\ lookupErrorMessage (nth 10 es kNoError) st' = "m10"%string.
Proof.
  intros ms st' es.
  assert (Hne : Forall nonempty ms) by (repeat constructor; discriminate).
  destruct (error_buffer_keeps_last_ten 1 2 ms kInitialErrorMessages
              buffer_ok_initial eq_refl Hne) as [_ [H0 [Hi _]]].
  split; [exact H0|]. apply (Hi 10). lia.
Defined.

(** ** Error classification *)

Lemma errorIsInSet_code_zero (err : C4Error) (set : ErrorSet) :
  code err = 0%Z -> errorIsInSet err set = false.
Proof. intros H. unfold errorIsInSet. rewrite H. reflexivity. Qed.

Lemma errorIsInSet_out_of_range (err : C4Error) (set : ErrorSet) :
  domain_value (domain err) ->
  (domain err < 0 \/ kC4MaxErrorDomainPlus1 <= domain err)%Z ->
  errorIsInSet err set = false.
Proof.
  unfold domain_value, kC4MaxErrorDomainPlus1. intros Hv Hout. unfold errorIsInSet.
  replace (to_uint32 (domain err) <? kC4MaxErrorDomainPlus1)%Z with false.
  - now rewrite andb_false_r.
  - symmetry. apply Z.ltb_ge. unfold kC4MaxErrorDomainPlus1, to_uint32.
    destruct Hout as [Hneg|Hbig].
    + rewrite <- (Z.mod_add (domain err) 1 (2 ^ 32)) by lia.
      rewrite Z.mod_small; lia.
    + rewrite Z.mod_small; lia.
Qed.

Lemma errorIsInSet_unregistered (err : C4Error) (set : ErrorSet) :
  registered set (domain err) = None -> errorIsInSet err set = false.
Proof.
  unfold registered, errorIsInSet. intros ->.
  now destruct (negb (code err =? 0)%Z && (to_uint32 (domain err) <? kC4MaxErrorDomainPlus1)%Z).
Qed.

Lemma errorIsInSet_info (d c i i' : Z) (set : ErrorSet) :
  errorIsInSet (mkC4Error d c i) set = errorIsInSet (mkC4Error d c i') set.
Proof. reflexivity. Qed.

Section Classification.

Variable k : Platform.

(** C6. The DNS-failure error of the network domain is classified as transient
    and as network-dependent at once (the code being non-zero, as any code
    listed in a zero-terminated table has to be). *)
Theorem dns_failure_in_both_sets (info : Z) :
  kC4NetErrDNSFailure k <> 0%Z ->
  c4error_mayBeTransient k (mkC4Error NetworkDomain (kC4NetErrDNSFailure k) info) = true
  /\ c4error_mayBeNetworkDependent k
       (mkC4Error NetworkDomain (kC4NetErrDNSFailure k) info) = true.
Proof.
  intros Hdns.
  unfold c4error_mayBeTransient, c4error_mayBeNetworkDependent, errorIsInSet.
  simpl code. simpl domain.
  apply Z.eqb_neq in Hdns. rewrite Hdns. simpl.
  rewrite Hdns, Z.eqb_refl. split; reflexivity.
Qed.

(** C7. Both classifiers answer false for an error whose code is 0, whose
    domain is outside the range of known domains, or whose domain has no code
    list registered in the classifier's table; the answer is a function of the
    domain and the code alone. *)
Theorem classifiers_false_outside_tables (err : C4Error) :
  (code err = 0%Z ->
   c4error_mayBeTransient k err = false /\ c4error_mayBeNetworkDependent k err = false)
  /\ (domain_value (domain err) ->
      (domain err < 0 \/ kC4MaxErrorDomainPlus1 <= domain err)%Z ->
      c4error_mayBeTransient k err = false
      /\ c4error_mayBeNetworkDependent k err = false)
  /\ (registered (kTransient k) (domain err) = None ->
      c4error_mayBeTransient k err = false)
  /\ (registered (kUnreachable k) (domain err) = None ->
      c4error_mayBeNetworkDependent k err = false)
  /\ (forall info,
      c4error_mayBeTransient k (mkC4Error (domain err) (code err) info)
      = c4error_mayBeTransient k err
      /\ c4error_mayBeNetworkDependent k (mkC4Error (domain err) (code err) info)
         = c4error_mayBeNetworkDependent k err).
Proof.
  unfold c4error_mayBeTransient, c4error_mayBeNetworkDependent.
  split; [|split; [|split; [|split]]].
  - intros H. split; now apply errorIsInSet_code_zero.
  - intros Hv Hout. split; now apply errorIsInSet_out_of_range.
  - apply errorIsInSet_unregistered.
  - apply errorIsInSet_unregistered.
  - intros info. destruct err as [d c i]. split; reflexivity.
Qed.

(** The domains without a list: 0, LiteCore (1), 3 and 4 in both tables, and
    WebSocket in the table of network-dependent codes. *)
Lemma unregistered_domains :
  registered (kTransient k) 0 = None /\ registered (kTransient k) 1 = None
  /\ registered (kTransient k) 3 = None /\ registered (kTransient k) 4 = None
  /\ registered (kUnreachable k) 0 = None /\ registered (kUnreachable k) 1 = None
  /\ registered (kUnreachable k) 3 = None /\ registered (kUnreachable k) 4 = None
  /\ registered (kUnreachable k) WebSocketDomain = None.
Proof. repeat split. Qed.

End Classification.

Lemma dns_failure_in_both_sets_witness :
  c4error_mayBeTransient kLinux (mkC4Error NetworkDomain 1 0) = true
  /\ c4error_mayBeNetworkDependent kLinux (mkC4Error NetworkDomain 1 0) = true.
Proof.
  apply (dns_failure_in_both_sets kLinux 0). discriminate.
Defined.

Lemma classifiers_false_outside_tables_witness :
  c4error_mayBeTransient kLinux (mkC4Error POSIXDomain 0 0) = false
  /\ c4error_mayBeNetworkDependent kLinux (mkC4Error 9 110 0) = false
  /\ c4error_mayBeTransient kLinux (mkC4Error 1 104 0) = false
  /\ c4error_mayBeNetworkDependent kLinux (mkC4Error WebSocketDomain 503 0) = false.
Proof.
  split; [|split; [|split]].
  - destruct (classifiers_false_outside_tables kLinux (mkC4Error POSIXDomain 0 0))
      as [Hzero _].
    apply Hzero. reflexivity.
  - destruct (classifiers_false_outside_tables kLinux (mkC4Error 9 110 0))
      as [_ [Hrange _]].
    apply Hrange.
    + unfold domain_value. simpl. lia.
    + right. unfold kC4MaxErrorDomainPlus1. simpl. lia.
  - destruct (classifiers_false_outside_tables kLinux (mkC4Error 1 104 0))
      as [_ [_ [Hnone _]]].
    apply Hnone. reflexivity.
  - destruct (classifiers_false_outside_tables kLinux (mkC4Error WebSocketDomain 503 0))
      as [_ [_ [_ [Hnone _]]]].
    apply Hnone. reflexivity.
Defined.

(** ** The controller *)

Lemma level_eqb_eq (a b : C4ReplicatorActivityLevel) : level_eqb a b = true <-> a = b.
Proof. destruct a, b; simpl; split; congruence. Qed.

Lemma both_stopped_iff (c : C4Replicator) :
  both_stopped c = true <-> level (status c) = kC4Stopped /\ _otherLevel c = kC4Stopped.
Proof.
  unfold both_stopped. now rewrite andb_true_iff, !level_eqb_eq.
Qed.

(** What a notification does to the levels the controller keeps: the
    primary's status is replaced by the new one, the peer's level by the new
    level, and a notification from anyone else changes neither. *)
Lemma release_when_stopped_levels (c : C4Replicator) :
  status (release_when_stopped c) = status c
  /\ _otherLevel (release_when_stopped c) = _otherLevel c.
Proof.
  unfold release_when_stopped. destruct (both_stopped c); split; reflexivity.
Qed.

Lemma release_when_stopped_both (c : C4Replicator) :
  both_stopped (release_when_stopped c) = both_stopped c.
Proof.
  unfold both_stopped. destruct (release_when_stopped_levels c) as [-> ->].
  reflexivity.
Qed.

Lemma release_when_stopped_retain (c : C4Replicator) :
  _selfRetain (release_when_stopped c) = _selfRetain c && negb (both_stopped c)
  /\ refCount (release_when_stopped c)
     = (if _selfRetain c && both_stopped c then pred (refCount c) else refCount c).
Proof.
  unfold release_when_stopped, clear_selfRetain.
  destruct (both_stopped c); simpl; destruct (_selfRetain c); split; reflexivity.
Qed.

Lemma record_status_retain (c : C4Replicator) (repl : ptr) (newStatus : C4ReplicatorStatus) :
  _selfRetain (fst (record_status c repl newStatus)) = _selfRetain c
  /\ refCount (fst (record_status c repl newStatus)) = refCount c.
Proof.
  unfold record_status. destruct (repl =? _replicator c); [split; reflexivity|].
  destruct (_otherReplicator c) as [other|]; [|split; reflexivity].
  destruct (repl =? other); split; reflexivity.
Qed.

Lemma replicatorStatusChanged_fst (c : C4Replicator) (repl : ptr)
    (newStatus : C4ReplicatorStatus) :
  fst (replicatorStatusChanged c repl newStatus)
  = release_when_stopped (fst (record_status c repl newStatus)).
Proof.
  unfold replicatorStatusChanged. now destruct (record_status c repl newStatus).
Qed.

(** What a notification does to the levels the controller keeps: the
    primary's status is replaced by the new one, the peer's level by the new
    level. *)
Lemma notification_from_primary (c : C4Replicator) (newStatus : C4ReplicatorStatus) :
  let c' := fst (replicatorStatusChanged c (_replicator c) newStatus) in
  status c' = newStatus /\ _otherLevel c' = _otherLevel c.
Proof.
  simpl. rewrite replicatorStatusChanged_fst.
  destruct (release_when_stopped_levels
              (fst (record_status c (_replicator c) newStatus))) as [-> ->].
  unfold record_status. rewrite Nat.eqb_refl. split; reflexivity.
Qed.

Lemma notification_from_peer (c : C4Replicator) (other : ptr)
    (newStatus : C4ReplicatorStatus) :
  _otherReplicator c = Some other -> other <> _replicator c ->
  let c' := fst (replicatorStatusChanged c other newStatus) in
  status c' = status c /\ _otherLevel c' = level newStatus.
Proof.
  intros Ho Hne. simpl. rewrite replicatorStatusChanged_fst.
  destruct (release_when_stopped_levels
              (fst (record_status c other newStatus))) as [-> ->].
  unfold record_status. apply Nat.eqb_neq in Hne. rewrite Hne, Ho, Nat.eqb_refl.
  split; reflexivity.
Qed.

(** The self-reference after a notification: kept unless both levels are
    stopped; the reference count goes down by one when it is dropped. *)
Lemma replicatorStatusChanged_release (c : C4Replicator) (repl : ptr)
    (newStatus : C4ReplicatorStatus) :
  let c' := fst (replicatorStatusChanged c repl newStatus) in
  _selfRetain c' = _selfRetain c && negb (both_stopped c')
  /\ refCount c'
     = (if _selfRetain c && both_stopped c' then pred (refCount c) else refCount c).
Proof.
  simpl. rewrite replicatorStatusChanged_fst, release_when_stopped_both.
  destruct (release_when_stopped_retain (fst (record_status c repl newStatus)))
    as [-> ->].
  destruct (record_status_retain c repl newStatus) as [-> ->].
  split; reflexivity.
Qed.

Lemma deliver_app (c : C4Replicator) (ns ms : list Notification) :
  deliver c (ns ++ ms) = deliver (deliver c ns) ms.
Proof.
  revert c. induction ns as [|[repl st] ns IH]; intros c; simpl; [reflexivity|].
  apply IH.
Qed.

(** Once released, the self-reference stays released and the reference count
    is not decremented again. *)
Lemma released_stays_released (ns : list Notification) :
  forall c : C4Replicator,
  _selfRetain c = false ->
  _selfRetain (deliver c ns) = false /\ refCount (deliver c ns) = refCount c.
Proof.
  induction ns as [|[repl st] ns IH]; intros c Hc; simpl; [now split|].
  destruct (replicatorStatusChanged_release c repl st) as [Hs Hr].
  rewrite Hc in Hs, Hr. simpl in Hs, Hr.
  destruct (IH _ Hs) as [IH1 IH2]. split; congruence.
Qed.

(** Along a run of notifications, a self-reference that was held is released
    exactly when some notification left both levels stopped. *)
Lemma released_iff_stopped_seen (ns : list Notification) :
  forall c : C4Replicator,
  _selfRetain c = true ->
  (_selfRetain (deliver c ns) = false <->
   exists k, k < length ns /\ both_stopped (deliver c (firstn (S k) ns)) = true).
Proof.
  induction ns as [|[repl st] rest IH]; intros c Hc.
  - simpl. split; [congruence|]. intros [k [Hk _]]. lia.
  - simpl deliver at 1. set (c1 := fst (replicatorStatusChanged c repl st)).
    destruct (replicatorStatusChanged_release c repl st) as [Hs _].
    fold c1 in Hs. rewrite Hc in Hs. simpl in Hs.
    destruct (both_stopped c1) eqn:E; simpl in Hs.
    + split.
      * intros _. exists 0. split; [simpl; lia | exact E].
      * intros _. now apply released_stays_released.
    + rewrite (IH c1 Hs). split.
      * intros [k [Hk Hb]]. exists (S k). split; [simpl; lia | exact Hb].
      * intros [[|k] [Hk Hb]].
        -- simpl in Hb. fold c1 in Hb. congruence.
        -- exists k. split; [simpl in Hk; lia | exact Hb].
Qed.

Section Creation.

Variable initial_status : Replicator -> C4ReplicatorStatus.
Variable c4db_openAgain : C4Database -> C4Database + C4Error.
Variable c4db_getPath : C4Database -> list ascii.
Variable throws : Throws.

(** [try_new], step by step. *)
Lemma try_new_run (m : Construct C4Replicator) (w : World) :
  try_new throws m w
  = match operator_new_throws throws with
    | Some e => (w, inr (Caught e))
    | None =>
        match m w with
        | (w1, inl c) => (w1, inl (retain c))
        | (w1, inr e) => (w1, inr (Caught e))
        end
    end.
Proof.
  unfold try_new, bind, may_throw. now destruct (operator_new_throws throws).
Qed.

(** The remote constructor, step by step: the first collaborator that throws
    ends it; otherwise one engine is on the heap. *)
Lemma C4Replicator_remote_run (w : World) (db : C4Database) (serverAddress : C4Address)
    (name : slice) (push pull : C4ReplicatorMode) (cb : option nat) (ctx : nat) :
  let r := remote_engine db serverAddress name push pull in
  C4Replicator_remote initial_status throws db serverAddress name push pull cb ctx w
  = match DefaultProvider_throws throws with
    | Some e => (w, inr e)
    | None =>
    match addressFrom_throws throws (addressFrom_remote serverAddress name) with
    | Some e => (w, inr e)
    | None =>
    match Replicator_throws throws r with
    | Some e => (w, inr e)
    | None =>
        (mkWorld (engines w ++ [r]) (connected w),
         inl (mkC4Replicator cb ctx (length (engines w)) None (initial_status r)
                             kC4Stopped true 1))
    end end end.
Proof.
  unfold C4Replicator_remote, C4Replicator_private, construct_Replicator, bind,
    may_throw, ret, new_Replicator, remote_engine.
  destruct (DefaultProvider_throws throws); [reflexivity|].
  destruct (addressFrom_throws throws _); [reflexivity|].
  destruct (Replicator_throws throws _); reflexivity.
Qed.

(** The local constructor, step by step: the first collaborator that throws
    ends it, with the engines built so far on the heap; otherwise both engines
    are on the heap and connected. *)
Lemma C4Replicator_local_run (w : World) (db otherDB : C4Database)
    (push pull : C4ReplicatorMode) (cb : option nat) (ctx : nat) :
  let p := length (engines w) in
  let r1 := local_primary_engine c4db_getPath db otherDB push pull in
  let r2 := local_peer_engine c4db_getPath db otherDB in
  C4Replicator_local initial_status c4db_getPath throws db otherDB push pull cb ctx w
  = match loopbackProvider_throws throws with
    | Some e => (w, inr e)
    | None =>
    match addressFrom_throws throws (addressFrom_local c4db_getPath otherDB) with
    | Some e => (w, inr e)
    | None =>
    match Replicator_throws throws r1 with
    | Some e => (w, inr e)
    | None =>
    match addressFrom_throws throws (addressFrom_local c4db_getPath db) with
    | Some e => (mkWorld (engines w ++ [r1]) (connected w), inr e)
    | None =>
    match createWebSocket_throws throws (addressFrom_local c4db_getPath db) with
    | Some e => (mkWorld (engines w ++ [r1]) (connected w), inr e)
    | None =>
    match Replicator_throws throws r2 with
    | Some e => (mkWorld (engines w ++ [r1]) (connected w), inr e)
    | None =>
    match connect_throws throws p (S p) with
    | Some e => (mkWorld (engines w ++ [r1; r2]) (connected w), inr e)
    | None =>
        (mkWorld (engines w ++ [r1; r2]) (connected w ++ [(p, S p)]),
         inl (mkC4Replicator cb ctx p (Some (S p)) (initial_status r1)
                             (level (initial_status r2)) true 1))
    end end end end end end end.
Proof.
  unfold C4Replicator_local, C4Replicator_private, construct_Replicator, bind,
    may_throw, ret, new_Replicator, connect, local_primary_engine, local_peer_engine.
  destruct (loopbackProvider_throws throws); [reflexivity|].
  destruct (addressFrom_throws throws (addressFrom_local c4db_getPath otherDB));
    [reflexivity|].
  destruct (Replicator_throws throws _); [reflexivity|].
  destruct (addressFrom_throws throws (addressFrom_local c4db_getPath db));
    [reflexivity|].
  destruct (createWebSocket_throws throws _); [reflexivity|].
  destruct (Replicator_throws throws _); [reflexivity|].
  simpl. rewrite length_app. simpl length.
  replace (length (engines w) + 1) with (S (length (engines w))) by lia.
  rewrite <- app_assoc. simpl app.
  destruct (connect_throws throws _ _); reflexivity.
Qed.

Lemma engines_lookup (l : list Replicator) (r1 r2 : Replicator) :
  nth_error (l ++ [r1; r2]) (length l) = Some r1
  /\ nth_error (l ++ [r1; r2]) (S (length l)) = Some r2.
Proof.
  split.
  - rewrite nth_error_app2 by lia. now rewrite Nat.sub_diag.
  - rewrite nth_error_app2 by lia.
    replace (S (length l) - length l) with 1 by lia. reflexivity.
Qed.

(** A session with a local database, as [c4repl_new] returns it. *)
Lemma local_session_shape
    (w : World) (db other : C4Database) (serverAddress : C4Address)
    (remoteDatabaseName : slice) (push pull : C4ReplicatorMode)
    (cb : option nat) (ctx : nat) (w' : World) (c : C4Replicator) :
  c4repl_new initial_status c4db_openAgain c4db_getPath throws w db serverAddress
             remoteDatabaseName (Some other) push pull cb ctx = (w', inl c) ->
  exists dbCopy otherCopy,
    let p := length (engines w) in
    let r1 := local_primary_engine c4db_getPath dbCopy otherCopy push pull in
    let r2 := local_peer_engine c4db_getPath dbCopy otherCopy in
    c4db_openAgain db = inl dbCopy /\ c4db_openAgain other = inl otherCopy
    /\ w' = mkWorld (engines w ++ [r1; r2]) (connected w ++ [(p, S p)])
    /\ c = mkC4Replicator cb ctx p (Some (S p)) (initial_status r1)
                          (level (initial_status r2)) true 2.
Proof.
  unfold c4repl_new.
  destruct (mode_eqb push kC4Disabled && mode_eqb pull kC4Disabled); [discriminate|].
  destruct (c4db_openAgain db) as [dbCopy|e]; [|discriminate].
  destruct (other =? db); [discriminate|].
  destruct (c4db_openAgain other) as [otherDBCopy|e]; [|discriminate].
  rewrite try_new_run, C4Replicator_local_run. cbv zeta.
  destruct (operator_new_throws throws); [discriminate|].
  destruct (loopbackProvider_throws throws); [discriminate|].
  destruct (addressFrom_throws throws (addressFrom_local _ otherDBCopy));
    [discriminate|].
  destruct (Replicator_throws throws _); [discriminate|].
  destruct (addressFrom_throws throws (addressFrom_local _ dbCopy)); [discriminate|].
  destruct (createWebSocket_throws throws _); [discriminate|].
  destruct (Replicator_throws throws _); [discriminate|].
  destruct (connect_throws throws _ _); [discriminate|].
  intros [= <- <-]. exists dbCopy, otherDBCopy. repeat split.
Qed.

(** C8. When [c4repl_new] creates a local-to-local session, the peer engine
    has been constructed with push and pull both passive, and the primary
    engine with the push and pull modes of the caller. *)
Theorem local_session_engine_modes
    (w : World) (db other : C4Database) (serverAddress : C4Address)
    (remoteDatabaseName : slice) (push pull : C4ReplicatorMode)
    (cb : option nat) (ctx : nat) (w' : World) (c : C4Replicator) :
  c4repl_new initial_status c4db_openAgain c4db_getPath throws w db serverAddress
             remoteDatabaseName (Some other) push pull cb ctx = (w', inl c) ->
  exists (q : ptr) (primary peer : Replicator),
    _otherReplicator c = Some q
    /\ q <> _replicator c
    /\ engine w' (_replicator c) = Some primary
    /\ engine w' q = Some peer
    /\ r_options primary = mkOptions push pull
    /\ r_options peer = mkOptions kC4Passive kC4Passive
    /\ In (_replicator c, q) (connected w').
Proof.
  intros H.
  destruct (local_session_shape w db other serverAddress remoteDatabaseName
              push pull cb ctx w' c H) as [dbCopy [otherCopy [_ [_ [-> ->]]]]].
  destruct (engines_lookup (engines w)
              (local_primary_engine c4db_getPath dbCopy otherCopy push pull)
              (local_peer_engine c4db_getPath dbCopy otherCopy)) as [H1 H2].
  exists (S (length (engines w))). eexists. eexists.
  cbn [_replicator _otherReplicator]. unfold engine. cbn [engines connected].
  split; [reflexivity|]. split; [lia|]. split; [exact H1|]. split; [exact H2|].
  split; [reflexivity|]. split; [reflexivity|].
  apply in_or_app. right. now left.
Qed.

End Creation.

Lemma local_session_engine_modes_witness :
  exists (w' : World) (c : C4Replicator),
    c4repl_new (fun _ => mkStatus kC4Connecting (0, 0)%Z kNoError)
               (fun d => inl (d + 10)) (fun _ => sl "/var/db.cblite2") kNoThrow
               (mkWorld [] []) 1 kAddressUnset nullslice (Some 2)
               kC4OneShot kC4Continuous None 0 = (w', inl c)
    /\ exists (q : ptr) (primary peer : Replicator),
         _otherReplicator c = Some q
         /\ q <> _replicator c
         /\ engine w' (_replicator c) = Some primary
         /\ engine w' q = Some peer
         /\ r_options primary = mkOptions kC4OneShot kC4Continuous
         /\ r_options peer = mkOptions kC4Passive kC4Passive
         /\ In (_replicator c, q) (connected w').
Proof.
  eexists. eexists. split; [reflexivity|].
  eapply (local_session_engine_modes
            (fun _ => mkStatus kC4Connecting (0, 0)%Z kNoError)
            (fun d => inl (d + 10)) (fun _ => sl "/var/db.cblite2") kNoThrow
            (mkWorld [] []) 1 2 kAddressUnset nullslice).
  reflexivity.
Defined.

(** * Further properties *)

(** ** Accepted URLs *)

Lemma findByte_Some_spec (s : list ascii) (b : ascii) :
  forall i, findByte s b = Some i ->
  i < length s /\ ~ In b (firstn i s) /\ exists r, skipn i s = b :: r.
Proof.
  induction s as [|c r IH]; simpl; intros i H; [discriminate|].
  destruct (Ascii.eqb_spec c b) as [->|Hne].
  - injection H as <-. simpl. repeat split; [lia | tauto | now exists r].
  - destruct (findByte r b) as [j|]; [|discriminate]. injection H as <-.
    destruct (IH j eq_refl) as [Hlt [Hnot Hr]]. simpl.
    repeat split; [lia | | exact Hr].
    intros [Heq|Hin]; [congruence | contradiction].
Qed.

(** Where [findByteOrEnd] points: the byte is not before it, and it is either
    the end or the byte itself. *)
Lemma findByteOrEnd_spec (s : list ascii) (b : ascii) :
  findByteOrEnd s b <= length s
  /\ ~ In b (firstn (findByteOrEnd s b) s)
  /\ (findByteOrEnd s b = length s \/ exists r, skipn (findByteOrEnd s b) s = b :: r).
Proof.
  unfold findByteOrEnd. destruct (findByte s b) as [i|] eqn:E.
  - destruct (findByte_Some_spec s b i E) as [Hlt [Hnot Hr]].
    repeat split; [lia | exact Hnot | now right].
  - apply findByte_None in E. repeat split; [lia | | now left].
    now rewrite firstn_all.
Qed.

Lemma firstn_split_between (s : list ascii) (p q : nat) :
  p <= q -> firstn q s = firstn p s ++ between s p q.
Proof.
  unfold between. revert s q. induction p as [|p IH]; intros s q Hpq.
  - simpl. now rewrite Nat.sub_0_r.
  - destruct q as [|q]; [lia|]. destruct s as [|c s]; simpl.
    + now rewrite firstn_nil.
    + f_equal. apply IH. lia.
Qed.

Lemma hasPrefix_split (s p : list ascii) :
  hasPrefix s p = true -> s = p ++ skipn (length p) s.
Proof.
  revert s. induction p as [|y p IH]; intros s H; simpl in *; [reflexivity|].
  destruct s as [|x s]; [discriminate|].
  apply andb_prop in H. destruct H as [Hxy Hrest].
  apply Ascii.eqb_eq in Hxy. subst y. simpl. f_equal. now apply IH.
Qed.

Lemma strip_trailing_slash_cases (body : list ascii) :
  body = strip_trailing_slash body \/ body = strip_trailing_slash body ++ sl "/".
Proof.
  unfold strip_trailing_slash, hasSuffix, setSize.
  destruct (length (sl "/") <=? length body) eqn:Hlen; [|now left].
  destruct (slice_eqb (skipn (length body - length (sl "/")) body) (sl "/")) eqn:E;
    [|now left].
  right. apply slice_eqb_eq in E. simpl andb. cbv iota.
  change (length (sl "/")) with 1 in E.
  rewrite <- E. symmetry. apply firstn_skipn.
Qed.

Lemma default_port_range (s : list ascii) :
  default_port s = 80%Z \/ default_port s = 443%Z.
Proof. unfold default_port. destruct (Ascii.eqb _ _); auto. Qed.

Lemma port_number_range (s : list ascii) (digits : option (list ascii)) (n : Z) :
  port_number s digits = Some n -> (0 <= n <= 65535)%Z.
Proof.
  destruct digits as [dg|]; simpl.
  - destruct (stoi dg) as [m|]; [|discriminate].
    destruct ((m <? 0) || (m >? 65535))%Z eqn:R; [discriminate|].
    apply port_in_range in R. intros [= <-]. now rewrite to_uint16_id.
  - intros [= <-]. destruct (default_port_range s) as [-> | ->]; lia.
Qed.

(** A URL that parses begins with a valid scheme and ["://"]. *)
Lemma parseURL_success_scheme (str : list ascii) (a : C4Address) (d : slice) :
  parse_ok (c4repl_parseURL (Slice str) a d) = true ->
  exists s rest, In s kValidSchemes /\ str = s ++ sl "://" ++ rest.
Proof.
  unfold c4repl_parseURL.
  set (colon := findByteOrEnd str ":").
  destruct (isValidScheme (scheme (set_scheme a (Slice (between str 0 colon))))) eqn:Hv;
    [|discriminate].
  cbn [negb].
  destruct (hasPrefix (setStart str colon) (sl "://")) eqn:Hp; [|discriminate].
  intros _. apply isValidScheme_In in Hv. simpl in Hv.
  exists (between str 0 colon), (skipn 3 (setStart str colon)).
  split; [exact Hv|].
  apply hasPrefix_split in Hp. change (length (sl "://")) with 3 in Hp.
  rewrite <- Hp. unfold between, setStart. simpl skipn at 1.
  rewrite Nat.sub_0_r. symmetry. apply firstn_skipn.
Qed.

(** What follows ["://"] in a URL that parses: a host without colon or slash,
    possibly a colon and a port substring without slash, and a path. *)
Lemma parseURL_authority_shape (rest : list ascii) (a : C4Address) (d : slice) :
  parse_ok (parseURL_authority rest a d) = true ->
  exists host digits p,
    rest = host ++ port_bytes digits ++ p
    /\ ~ In ":"%char host /\ ~ In "/"%char host
    /\ (forall dg, digits = Some dg -> ~ In "/"%char dg)
    /\ path_shaped p.
Proof.
  unfold parseURL_authority.
  set (colon := findByteOrEnd rest ":"). set (slash := findByteOrEnd rest "/").
  destruct (findByteOrEnd_spec rest ":") as [Hcl [Hcn Hcr]].
  destruct (findByteOrEnd_spec rest "/") as [Hsl [Hsn Hsr]].
  fold colon in Hcl, Hcn, Hcr. fold slash in Hsl, Hsn, Hsr.
  assert (Hpath : path_shaped (skipn slash rest)).
  { destruct Hsr as [Hend|[r Hr]].
    - left. rewrite Hend. apply skipn_all.
    - right. now exists r. }
  destruct (colon <? slash) eqn:Hlt.
  - apply Nat.ltb_lt in Hlt. intros _.
    destruct Hcr as [Hend|[r Hr]]; [lia|].
    exists (firstn colon rest), (Some (between rest (colon + 1) slash)), (skipn slash rest).
    assert (Hsplit : firstn slash rest
                     = firstn colon rest ++ ":"%char :: between rest (colon + 1) slash).
    { rewrite (firstn_split_between rest colon slash) by lia. f_equal.
      unfold between. rewrite Hr.
      replace (slash - colon) with (S (slash - (colon + 1))) by lia.
      simpl firstn. f_equal. f_equal.
      replace (colon + 1) with (1 + colon) by lia.
      rewrite <- skipn_skipn, Hr. reflexivity. }
    repeat split.
    + simpl port_bytes. rewrite <- (firstn_skipn slash rest) at 1.
      rewrite Hsplit, <- app_assoc. reflexivity.
    + exact Hcn.
    + intros Hin. apply Hsn. rewrite Hsplit. apply in_or_app. now left.
    + intros dg [= <-] Hin. apply Hsn. rewrite Hsplit.
      apply in_or_app. right. now right.
    + exact Hpath.
  - apply Nat.ltb_ge in Hlt. intros _.
    exists (firstn slash rest), None, (skipn slash rest).
    repeat split.
    + simpl. symmetry. apply firstn_skipn.
    + intros Hin. apply Hcn.
      rewrite (firstn_split_between rest slash colon) by lia.
      apply in_or_app. now left.
    + exact Hsn.
    + discriminate.
    + exact Hpath.
Qed.

(** Everything a successful parse tells: the shape of the URL and the outputs
    in terms of its pieces. *)
Lemma parseURL_success_pieces (str : list ascii) (a : C4Address) (d : slice) :
  parse_ok (c4repl_parseURL (Slice str) a d) = true ->
  exists s host digits body n,
    str = s ++ sl "://" ++ host ++ port_bytes digits ++ "/"%char :: body
    /\ In s kValidSchemes
    /\ ~ In ":"%char host /\ ~ In "/"%char host
    /\ port_number s digits = Some n
    /\ c4repl_isValidDatabaseName (Slice (strip_trailing_slash body)) = true
    /\ c4repl_parseURL (Slice str) a d
       = (true, mkC4Address (Slice s) (Slice host) n (Slice (sl "/")),
          Slice (strip_trailing_slash body)).
Proof.
  intros Hok.
  destruct (parseURL_success_scheme str a d Hok) as [s [rest [Hs ->]]].
  pose proof Hok as Hauth.
  rewrite (parseURL_scheme s rest a d Hs) in Hauth.
  destruct (parseURL_authority_shape rest _ d Hauth)
    as [host [digits [p [-> [Hc [Hsl [Hd Hp]]]]]]].
  clear Hauth.
  pose proof (parseURL_anatomy s host p digits a d Hs Hc Hsl Hd Hp) as E.
  exists s, host, digits.
  rewrite E in Hok.
  destruct (port_number s digits) as [n|] eqn:Hn; [|discriminate Hok].
  destruct Hp as [->|[body ->]]; [discriminate Hok|].
  rewrite parseURL_path_slash in E, Hok.
  unfold parse_ok in Hok. simpl in Hok.
  exists body, n. rewrite E, Hok. repeat split; assumption.
Qed.

(** X1. When [c4repl_parseURL] succeeds, the address it hands back has a valid
    scheme, a hostname without colon or slash, a port in [0, 65535] and the
    path ["/"], and the database name is a valid one. *)
Theorem parseURL_success_outputs (u : slice) (a : C4Address) (d : slice) :
  parse_ok (c4repl_parseURL u a d) = true ->
  let r := c4repl_parseURL u a d in
  isValidScheme (scheme (parse_address r)) = true
  /\ ~ In ":"%char (bytes (hostname (parse_address r)))
  /\ ~ In "/"%char (bytes (hostname (parse_address r)))
  /\ (0 <= port (parse_address r) <= 65535)%Z
  /\ path (parse_address r) = Slice (sl "/")
  /\ c4repl_isValidDatabaseName (parse_dbName r) = true.
Proof.
  destruct u as [|str]; [discriminate|]. intros Hok.
  destruct (parseURL_success_pieces str a d Hok)
    as [s [host [digits [body [n [_ [Hs [Hc [Hsl [Hn [Hname E]]]]]]]]]]].
  rewrite E. unfold parse_address, parse_dbName. simpl.
  repeat split; try assumption.
  - now apply isValidScheme_In.
  - apply (port_number_range s digits n Hn).
  - apply (port_number_range s digits n Hn).
Qed.

Lemma parseURL_success_outputs_witness :
  let r := c4repl_parseURL (url "blips://db.example.com:4984/travel-sample/")
             kAddressUnset nullslice in
  isValidScheme (scheme (parse_address r)) = true
  /\ ~ In ":"%char (bytes (hostname (parse_address r)))
  /\ ~ In "/"%char (bytes (hostname (parse_address r)))
  /\ (0 <= port (parse_address r) <= 65535)%Z
  /\ path (parse_address r) = Slice (sl "/")
  /\ c4repl_isValidDatabaseName (parse_dbName r) = true.
Proof.
  apply (parseURL_success_outputs (url "blips://db.example.com:4984/travel-sample/")
           kAddressUnset nullslice).
  reflexivity.
Defined.

(** X2. A URL that [c4repl_parseURL] accepts can be put together again from
    what the parse returns: it is the scheme, ["://"], the hostname, possibly
    a colon and a port substring that converts to the returned port, a slash,
    the database name, and possibly one closing slash. *)
Theorem parseURL_success_reassembles (u : slice) (a : C4Address) (d : slice) :
  parse_ok (c4repl_parseURL u a d) = true ->
  let r := c4repl_parseURL u a d in
  exists digits tail,
    u = Slice (assemble (bytes (scheme (parse_address r)))
                        (bytes (hostname (parse_address r)))
                        digits (bytes (parse_dbName r)) tail)
    /\ (tail = [] \/ tail = sl "/")
    /\ port_number (bytes (scheme (parse_address r))) digits
       = Some (port (parse_address r)).
Proof.
  destruct u as [|str]; [discriminate|]. intros Hok.
  destruct (parseURL_success_pieces str a d Hok)
    as [s [host [digits [body [n [Hstr [Hs [Hc [Hsl [Hn [Hname E]]]]]]]]]]].
  rewrite E. unfold parse_address, parse_dbName. simpl.
  exists digits.
  destruct (strip_trailing_slash_cases body) as [Hb|Hb].
  - exists []. unfold assemble. rewrite app_nil_r, <- Hb.
    repeat split; [now rewrite Hstr | now left | exact Hn].
  - exists (sl "/"). unfold assemble. rewrite <- Hb.
    repeat split; [now rewrite Hstr | now right | exact Hn].
Qed.

Lemma parseURL_success_reassembles_witness :
  let r := c4repl_parseURL (url "blip://host:80/db/") kAddressUnset nullslice in
  exists digits tail,
    url "blip://host:80/db/"
    = Slice (assemble (bytes (scheme (parse_address r)))
                      (bytes (hostname (parse_address r)))
                      digits (bytes (parse_dbName r)) tail)
    /\ (tail = [] \/ tail = sl "/")
    /\ port_number (bytes (scheme (parse_address r))) digits
       = Some (port (parse_address r)).
Proof.
  apply (parseURL_success_reassembles (url "blip://host:80/db/") kAddressUnset nullslice).
  reflexivity.
Defined.

(** X3. [c4repl_parseURL] rejects a URL that does not begin with one of the
    four schemes followed by ["://"], and a URL that stops after the host or
    the port, without a path. *)
Theorem parseURL_rejects (str s host : list ascii) (digits : option (list ascii))
    (a : C4Address) (d : slice) :
  ((forall s0 rest, In s0 kValidSchemes -> str <> s0 ++ sl "://" ++ rest) ->
   parse_ok (c4repl_parseURL (Slice str) a d) = false)
  /\ (In s kValidSchemes ->
      ~ In ":"%char host -> ~ In "/"%char host ->
      (forall dg, digits = Some dg -> ~ In "/"%char dg) ->
      parse_ok (c4repl_parseURL (Slice (s ++ sl "://" ++ host ++ port_bytes digits)) a d)
      = false).
Proof.
  split.
  - intros Hno. destruct (parse_ok (c4repl_parseURL (Slice str) a d)) eqn:Hok;
      [|reflexivity].
    destruct (parseURL_success_scheme str a d Hok) as [s0 [rest [Hs0 Heq]]].
    exfalso. exact (Hno s0 rest Hs0 Heq).
  - intros Hs Hc Hsl Hd.
    pose proof (parseURL_anatomy s host [] digits a d Hs Hc Hsl Hd (or_introl eq_refl)) as E.
    rewrite app_nil_r in E. rewrite E.
    destruct (port_number s digits); reflexivity.
Qed.

Lemma parseURL_rejects_witness :
  parse_ok (c4repl_parseURL (Slice (sl "http://host/db")) kAddressUnset nullslice) = false
  /\ parse_ok (c4repl_parseURL
                 (Slice (sl "wss" ++ sl "://" ++ sl "host" ++ port_bytes (Some (sl "443"))))
                 kAddressUnset nullslice) = false.
Proof.
  destruct (parseURL_rejects (sl "http://host/db") (sl "wss") (sl "host") (Some (sl "443"))
              kAddressUnset nullslice) as [Hscheme Hpath].
  split.
  - apply Hscheme. intros s0 rest [<-|[<-|[<-|[<-|[]]]]]; discriminate.
  - apply Hpath.
    + simpl. tauto.
    + intros G. simpl in G. repeat destruct G as [G|G]; try discriminate G. exact G.
    + intros G. simpl in G. repeat destruct G as [G|G]; try discriminate G. exact G.
    + intros dg [= <-] G. simpl in G.
      repeat destruct G as [G|G]; try discriminate G. exact G.
Defined.

Lemma isdigit_not_slash (dg : list ascii) : forallb isdigit dg = true -> ~ In "/"%char dg.
Proof.
  intros H Hin. rewrite forallb_forall in H. specialize (H _ Hin). discriminate H.
Qed.

(** A port written as an integer literal with a value in range. *)
Lemma port_number_literal (s dg : list ascii) (n : Z) :
  integer_literal dg = Some n -> (0 <= n <= 65535)%Z ->
  port_number s (Some dg) = Some n /\ ~ In "/"%char dg.
Proof.
  intros Hlit Hrange. split.
  - simpl. rewrite (stoi_integer_literal dg n Hlit).
    replace (in_int_range n) with true.
    + replace ((n <? 0) || (n >? 65535))%Z with false
        by (symmetry; now apply port_in_range).
      now rewrite to_uint16_id.
    + symmetry. unfold in_int_range, INT_MIN, INT_MAX.
      apply andb_true_iff. split; apply Z.leb_le; lia.
  - unfold integer_literal in Hlit. destruct dg as [|c r]; [discriminate|].
    destruct (Ascii.eqb_spec c "-") as [->|_].
    + destruct (all_digits r) eqn:E; [|discriminate].
      unfold all_digits in E. apply andb_prop in E. destruct E as [_ E].
      intros [G|G]; [discriminate G | now apply (isdigit_not_slash r E)].
    + destruct (Ascii.eqb_spec c "+") as [->|_].
      * destruct (all_digits r) eqn:E; [|discriminate].
        unfold all_digits in E. apply andb_prop in E. destruct E as [_ E].
        intros [G|G]; [discriminate G | now apply (isdigit_not_slash r E)].
      * destruct (all_digits (c :: r)) eqn:E; [|discriminate].
        unfold all_digits in E. apply andb_prop in E. destruct E as [_ E].
        now apply isdigit_not_slash.
Qed.

(** X4. Building a URL from parts and parsing it gives the parts back: for a
    valid scheme, a host without colon or slash, an optional port substring
    that the source accepts, and a valid database name that does not end with
    a slash, with or without a closing slash after the name. *)
Theorem parseURL_of_parts (s host name tail : list ascii) (digits : option (list ascii))
    (n : Z) (a : C4Address) (d : slice) :
  In s kValidSchemes ->
  ~ In ":"%char host -> ~ In "/"%char host ->
  (forall dg, digits = Some dg -> ~ In "/"%char dg) ->
  port_number s digits = Some n ->
  c4repl_isValidDatabaseName (Slice name) = true ->
  hasSuffix name (sl "/") = false ->
  tail = [] \/ tail = sl "/" ->
  c4repl_parseURL (Slice (assemble s host digits name tail)) a d
  = (true, mkC4Address (Slice s) (Slice host) n (Slice (sl "/")), Slice name).
Proof.
  intros Hs Hc Hsl Hd Hn Hname Hend Htail. unfold assemble.
  rewrite (parseURL_anatomy s host ("/"%char :: name ++ tail) digits a d Hs Hc Hsl Hd)
    by (right; eexists; reflexivity).
  rewrite Hn, parseURL_path_slash.
  assert (Hstrip : strip_trailing_slash (name ++ tail) = name).
  { destruct Htail as [->| ->].
    - rewrite app_nil_r. unfold strip_trailing_slash. now rewrite Hend.
    - apply strip_trailing_slash_app. }
  now rewrite Hstrip, Hname.
Qed.

Lemma parseURL_of_parts_witness :
  c4repl_parseURL
    (Slice (assemble (sl "blip") (sl "localhost") (Some (sl "4984")) (sl "db_1") (sl "/")))
    kAddressUnset nullslice
  = (true, mkC4Address (url "blip") (url "localhost") 4984 (url "/"), url "db_1").
Proof.
  destruct (port_number_literal (sl "blip") (sl "4984") 4984 eq_refl) as [Hn Hd]; [lia|].
  apply (parseURL_of_parts (sl "blip") (sl "localhost") (sl "db_1") (sl "/")
           (Some (sl "4984")) 4984 kAddressUnset nullslice).
  - simpl. tauto.
  - intros G. simpl in G. repeat destruct G as [G|G]; try discriminate G. exact G.
  - intros G. simpl in G. repeat destruct G as [G|G]; try discriminate G. exact G.
  - intros dg [= <-]. exact Hd.
  - exact Hn.
  - reflexivity.
  - reflexivity.
  - now right.
Defined.

(** ** Recorded messages *)

Lemma nth_after_skipn (A : Type) (n i : nat) (l : list A) (d : A) :
  nth i (skipn n l) d = nth (n + i) l d.
Proof.
  revert l. induction n as [|n IH]; intros l; [reflexivity|].
  destruct l as [|x l]; simpl; [now destruct i | apply IH].
Qed.

Lemma to_uint32_eq_mod (x y : Z) :
  (0 <= y < 2 ^ 32)%Z -> (exists q, x = y + q * 2 ^ 32)%Z -> to_uint32 x = y.
Proof.
  intros Hy [q ->]. unfold to_uint32. rewrite Z.mod_add by lia. now apply Z.mod_small.
Qed.

(** A token [j] places below the first one, for [j] up to 2^31, is outside the
    window. *)
Lemma lookup_far_below_window (st : ErrorMessages) (e : C4Error) (j : Z) :
  (1 <= j <= 2 ^ 31)%Z ->
  to_uint32 (token e - sFirstErrorMessageInternalInfo st) = (2 ^ 32 - j)%Z ->
  lookupErrorMessage e st = EmptyString.
Proof.
  intros Hj Hoff. unfold lookupErrorMessage, token in *. rewrite Hoff.
  assert (Hint : to_int32 (2 ^ 32 - j) = (- j)%Z).
  { unfold to_int32.
    replace (2 ^ 32 - j + 2 ^ 31)%Z with (2 ^ 31 - j + 1 * 2 ^ 32)%Z by lia.
    rewrite Z.mod_add by lia. rewrite Z.mod_small; lia. }
  rewrite Hint.
  replace (0 <=? - j)%Z with false by (symmetry; apply Z.leb_gt; lia).
  reflexivity.
Qed.

Lemma lookup_token_zero (dom cd : Z) (st : ErrorMessages) :
  buffer_ok st ->
  (1 <= sFirstErrorMessageInternalInfo st <= 2 ^ 32 - 10)%Z ->
  lookupErrorMessage (mkC4Error dom cd 0) st = EmptyString.
Proof.
  intros [_ Hlen] Hfirst. unfold kMaxErrorMessagesToSave in Hlen.
  unfold lookupErrorMessage. simpl internal_info.
  set (f := sFirstErrorMessageInternalInfo st) in *.
  assert (Hu : to_uint32 (0 - f) = (2 ^ 32 - f)%Z).
  { apply to_uint32_eq_mod; [lia|]. exists (-1)%Z. lia. }
  rewrite Hu. unfold to_int32.
  destruct (Z_le_gt_dec f (2 ^ 31)) as [Hsmall|Hbig].
  - replace (2 ^ 32 - f + 2 ^ 31)%Z with (2 ^ 31 - f + 1 * 2 ^ 32)%Z by lia.
    rewrite Z.mod_add by lia. rewrite Z.mod_small by lia.
    replace (0 <=? 2 ^ 31 - f - 2 ^ 31)%Z with false
      by (symmetry; apply Z.leb_gt; lia).
    reflexivity.
  - rewrite Z.mod_small by lia.
    replace (2 ^ 32 - f + 2 ^ 31 - 2 ^ 31 <? Z.of_nat (length (sErrorMessages st)))%Z
      with false by (symmetry; apply Z.ltb_ge; lia).
    now rewrite andb_false_r.
Qed.

Lemma c4error_make_lookup (dom cd : Z) (m : string) (st : ErrorMessages) :
  buffer_ok st -> nonempty m ->
  lookupErrorMessage (snd (c4error_make dom cd m st)) (fst (c4error_make dom cd m st)) = m
  /\ domain (snd (c4error_make dom cd m st)) = dom
  /\ code (snd (c4error_make dom cd m st)) = cd.
Proof.
  intros Hok Hm.
  destruct (c4error_make_step dom cd m st Hm Hok) as [Hmsgs [Hfirst [Htok Hok']]].
  destruct Hok as [Hf Hlen]. unfold kMaxErrorMessagesToSave in *.
  set (st' := fst (c4error_make dom cd m st)) in *.
  set (e := snd (c4error_make dom cd m st)) in *.
  set (len0 := length (sErrorMessages st)) in *.
  set (n := len0 + 1 - 10) in *.
  assert (Hn : n <= len0) by lia.
  split.
  - rewrite (lookup_in_window st' e (len0 - n)).
    + rewrite Hmsgs, nth_after_skipn.
      replace (n + (len0 - n)) with len0 by lia.
      unfold len0. rewrite app_nth2 by lia. now rewrite Nat.sub_diag.
    + rewrite Hmsgs, length_skipn, length_app. simpl. fold len0. lia.
    + destruct Hok' as [_ H]. exact H.
    + rewrite Htok, Hfirst, to_uint32_sub.
      apply to_uint32_eq_mod; [lia | exists 0%Z; lia].
  - subst e. unfold c4error_make, recordError.
    rewrite (nonempty_not_empty m Hm).
    destruct (kMaxErrorMessagesToSave <? length (sErrorMessages st ++ [m]));
      split; reflexivity.
Qed.

(** X5. A message recorded with [c4error_make] is the one [lookupErrorMessage]
    finds for the error that was returned, which carries the domain and the
    code given. *)
Theorem make_then_lookup (dom cd : Z) (m : string) (st : ErrorMessages) :
  buffer_ok st -> nonempty m ->
  let st' := fst (c4error_make dom cd m st) in
  let e := snd (c4error_make dom cd m st) in
  lookupErrorMessage e st' = m /\ domain e = dom /\ code e = cd.
Proof.
  intros Hok Hm st' e. now apply c4error_make_lookup.
Qed.

Lemma make_then_lookup_witness :
  lookupErrorMessage (snd (c4error_make 1 17 "disk full" kInitialErrorMessages))
                     (fst (c4error_make 1 17 "disk full" kInitialErrorMessages))
  = "disk full"%string.
Proof.
  apply (make_then_lookup 1 17 "disk full" kInitialErrorMessages buffer_ok_initial).
  discriminate.
Defined.

(** X6. A recorded message stays retrievable while at most nine further
    messages are recorded, and is no longer retrievable once ten or more (up
    to 2^31) have been. *)
Theorem message_lifetime (domain code : Z) (m : string) (ms : list string)
    (st : ErrorMessages) :
  buffer_ok st -> nonempty m -> Forall nonempty ms ->
  let st' := fst (record_all domain code (m :: ms) st) in
  let e := nth 0 (snd (record_all domain code (m :: ms) st)) kNoError in
  (length ms <= 9 -> lookupErrorMessage e st' = m)
  /\ (10 <= length ms -> (Z.of_nat (length ms) <= 2 ^ 31)%Z ->
      lookupErrorMessage e st' = EmptyString).
Proof.
  intros Hok Hm Hms st' e.
  assert (Hall : Forall nonempty (m :: ms)) by now constructor.
  destruct (record_all_spec domain code (m :: ms) st Hall Hok)
    as [Hmsgs [Hfirst [_ [Htok Hok']]]].
  fold st' in Hmsgs, Hfirst, Hok'.
  specialize (Htok 0 ltac:(simpl; lia)). fold e in Htok.
  destruct Hok as [Hf Hlen]. unfold kMaxErrorMessagesToSave in *.
  simpl length in *.
  set (len0 := length (sErrorMessages st)) in *.
  set (n := length ms) in *.
  set (drop := len0 + S n - 10) in *.
  rewrite Nat.add_0_r in Htok.
  split.
  - intros Hn.
    assert (Hd : drop <= len0) by lia.
    rewrite (lookup_in_window st' e (len0 - drop)).
    + rewrite Hmsgs, nth_after_skipn.
      replace (drop + (len0 - drop)) with len0 by lia.
      unfold len0. rewrite app_nth2 by lia. now rewrite Nat.sub_diag.
    + rewrite Hmsgs, length_skipn, length_app. simpl. fold len0 n. lia.
    + destruct Hok' as [_ H]. exact H.
    + rewrite Htok, Hfirst, to_uint32_sub.
      apply to_uint32_eq_mod; [lia | exists 0%Z; lia].
  - intros Hn Hbig.
    apply (lookup_far_below_window st' e (Z.of_nat (drop - len0))); [lia|].
    rewrite Htok, Hfirst, to_uint32_sub.
    apply to_uint32_eq_mod; [lia|]. exists (-1)%Z. lia.
Qed.

Lemma message_lifetime_witness :
  let ms := ["1"; "2"; "3"; "4"; "5"; "6"; "7"; "8"; "9"]%string in
  lookupErrorMessage
    (nth 0 (snd (record_all 1 2 ("first"%string :: ms) kInitialErrorMessages)) kNoError)
    (fst (record_all 1 2 ("first"%string :: ms) kInitialErrorMessages)) = "first"%string
  /\ lookupErrorMessage
       (nth 0 (snd (record_all 1 2 ("first"%string :: ms ++ ["10"%string])
                      kInitialErrorMessages)) kNoError)
       (fst (record_all 1 2 ("first"%string :: ms ++ ["10"%string])
               kInitialErrorMessages)) = EmptyString.
Proof.
  intros ms.
  assert (Hm : nonempty "first"%string) by discriminate.
  split.
  - assert (Hms : Forall nonempty ms) by (repeat constructor; discriminate).
    destruct (message_lifetime 1 2 "first" ms kInitialErrorMessages
                buffer_ok_initial Hm Hms) as [Hkeep _].
    apply Hkeep. simpl. lia.
  - assert (Hms : Forall nonempty (ms ++ ["10"%string]))
      by (repeat constructor; discriminate).
    destruct (message_lifetime 1 2 "first" (ms ++ ["10"%string]) kInitialErrorMessages
                buffer_ok_initial Hm Hms) as [_ Hgone].
    apply Hgone; simpl; lia.
Defined.

(** X7. Whatever calls of [recordError] have been made since the start of the
    process, the buffer holds at most ten messages, and its first token is a
    32-bit value. *)
Theorem buffer_bounded (calls : list RecordCall) :
  buffer_ok (record_calls calls kInitialErrorMessages).
Proof.
  assert (H : forall st, buffer_ok st -> buffer_ok (record_calls calls st)).
  { induction calls as [|[[[dm cd] m] out] rest IH]; intros st Hst; simpl.
    - exact Hst.
    - apply IH. now apply recordError_buffer_ok. }
  apply H, buffer_ok_initial.
Qed.

(** X8. A call that records nothing, because the message is empty or the
    pointer null, leaves the buffer as it is; the error of an empty message
    has token 0, and token 0 resolves to no message as long as the first
    token of the buffer is between 1 and 2^32 - 10. *)
Theorem nothing_recorded (dom cd : Z) (m : string) (e0 : C4Error)
    (st : ErrorMessages) :
  recordError dom cd m None st = (st, None)
  /\ recordError dom cd EmptyString (Some e0) st = (st, Some (mkC4Error dom cd 0))
  /\ (buffer_ok st ->
      (1 <= sFirstErrorMessageInternalInfo st <= 2 ^ 32 - 10)%Z ->
      lookupErrorMessage (mkC4Error dom cd 0) st = EmptyString).
Proof.
  split; [reflexivity|]. split; [reflexivity|].
  apply lookup_token_zero.
Qed.

Lemma nothing_recorded_witness :
  lookupErrorMessage (mkC4Error 1 2 0) kInitialErrorMessages = EmptyString.
Proof.
  apply (nothing_recorded 1 2 EmptyString kNoError kInitialErrorMessages).
  - exact buffer_ok_initial.
  - simpl. lia.
Defined.

(** ** Messages of errors *)

Section MessageOfError.

Variable what : Z -> Z -> string.

(** X9. [c4error_getMessage] gives no message for code 0 and "unknown error
    domain" for a domain outside 1..6.  For an error made by [c4error_make]
    with a domain in 1..6 and a non-zero code it gives the message recorded
    with the error, and the generic message of the domain and code when the
    error was made with an empty message. *)
Theorem getMessage_of_error (err : C4Error) (dom cd : Z) (m : string)
    (st : ErrorMessages) :
  (code err = 0%Z -> c4error_getMessage what err st = None)
  /\ (code err <> 0%Z ->
      (domain err < 1 \/ kC4MaxErrorDomainPlus1 <= domain err)%Z ->
      c4error_getMessage what err st = Some "unknown error domain"%string)
  /\ (buffer_ok st -> (1 <= dom < kC4MaxErrorDomainPlus1)%Z -> cd <> 0%Z ->
      nonempty m ->
      c4error_getMessage what (snd (c4error_make dom cd m st))
                         (fst (c4error_make dom cd m st)) = Some m)
  /\ (buffer_ok st -> (1 <= dom < kC4MaxErrorDomainPlus1)%Z -> cd <> 0%Z ->
      (1 <= sFirstErrorMessageInternalInfo st <= 2 ^ 32 - 10)%Z ->
      c4error_getMessage what (snd (c4error_make dom cd EmptyString st))
                         (fst (c4error_make dom cd EmptyString st))
      = Some (what dom cd)).
Proof.
  unfold kC4MaxErrorDomainPlus1.
  split; [|split; [|split]].
  - intros H. unfold c4error_getMessage. now rewrite H.
  - intros Hc Hd. unfold c4error_getMessage, kC4MaxErrorDomainPlus1.
    apply Z.eqb_neq in Hc. rewrite Hc.
    replace ((domain err <? 1) || (domain err >=? 7))%Z with true; [reflexivity|].
    symmetry. apply orb_true_iff. destruct Hd as [Hd|Hd].
    + left. apply Z.ltb_lt. lia.
    + right. apply Z.geb_le. lia.
  - intros Hok Hd Hc Hm.
    destruct (c4error_make_lookup dom cd m st Hok Hm) as [Hl [Hdom Hcode]].
    unfold c4error_getMessage, kC4MaxErrorDomainPlus1. rewrite Hl, Hdom, Hcode.
    apply Z.eqb_neq in Hc. rewrite Hc.
    replace ((dom <? 1) || (dom >=? 7))%Z with false.
    + now rewrite (nonempty_not_empty m Hm).
    + symmetry. apply orb_false_iff. split; [apply Z.ltb_ge; lia|].
      rewrite Z.geb_leb. apply Z.leb_gt. lia.
  - intros Hok Hd Hc Hf.
    unfold c4error_make. simpl.
    unfold c4error_getMessage, kC4MaxErrorDomainPlus1. simpl domain. simpl code.
    apply Z.eqb_neq in Hc. rewrite Hc.
    replace ((dom <? 1) || (dom >=? 7))%Z with false.
    + now rewrite (lookup_token_zero dom cd st Hok Hf).
    + symmetry. apply orb_false_iff. split; [apply Z.ltb_ge; lia|].
      rewrite Z.geb_leb. apply Z.leb_gt. lia.
Qed.

Lemma memcpy_then_store (buffer src : list ascii) (len : nat) :
  len <= length src -> len < length buffer ->
  match memcpy buffer src len with
  | Some b => store b len zero
  | None => None
  end = Some (firstn len src ++ zero :: skipn (S len) buffer).
Proof.
  intros Hsrc Hbuf. unfold memcpy.
  replace (len <=? length buffer) with true by (symmetry; apply Nat.leb_le; lia).
  unfold store.
  assert (Hfl : length (firstn len src) = len) by (rewrite length_firstn; lia).
  rewrite length_app, Hfl, length_skipn.
  replace (len <? len + (length buffer - len)) with true
    by (symmetry; apply Nat.ltb_lt; lia).
  f_equal.
  rewrite firstn_app, Hfl, Nat.sub_diag, firstn_firstn, Nat.min_id. simpl firstn.
  rewrite app_nil_r. f_equal. f_equal.
  rewrite skipn_app, Hfl.
  rewrite (skipn_all2 (firstn len src)) by (rewrite Hfl; lia).
  replace (S len - len) with 1 by lia. simpl app.
  change (skipn 1 (skipn len buffer) = skipn (S len) buffer).
  rewrite skipn_skipn. reflexivity.
Qed.

(** X10. With a declared size between 1 and the real size of the array,
    [c4error_getMessageC] leaves in the array the first
    [min(size of the message, bufferSize - 1)] bytes of the message followed
    by a NUL, and does not touch what lies beyond.  With a declared size of 0
    the length is not limited at all, and the write runs past the end of any
    array that is not longer than the message. *)
Theorem getMessageC_truncates (err : C4Error) (buffer : list ascii) (bufferSize : Z)
    (st : ErrorMessages) :
  let msg := message_bytes (c4error_getMessage what err st) in
  ((1 <= bufferSize <= Z.of_nat (length buffer))%Z -> (bufferSize < 2 ^ 64)%Z ->
   let len := Nat.min (length msg) (Z.to_nat (bufferSize - 1)) in
   c4error_getMessageC what err buffer bufferSize st
   = Some (firstn len msg ++ zero :: skipn (S len) buffer))
  /\ (bufferSize = 0%Z -> (Z.of_nat (length msg) < 2 ^ 64)%Z ->
      length buffer <= length msg ->
      c4error_getMessageC what err buffer bufferSize st = None).
Proof.
  intros msg. split.
  - intros Hsize Hbig len. unfold c4error_getMessageC. fold msg.
    assert (Hlen : Z.to_nat (Z.min (Z.of_nat (length msg)) (to_size_t (bufferSize - 1)))
                   = len).
    { unfold to_size_t. rewrite Z.mod_small by lia. unfold len. lia. }
    rewrite Hlen.
    assert (Hsrc : len <= length msg) by (unfold len; lia).
    assert (Hbuf : len < length buffer) by (unfold len; lia).
    destruct (c4error_getMessage what err st) as [m|] eqn:E.
    + apply memcpy_then_store; assumption.
    + unfold msg in *. simpl in *. subst len. unfold store.
      destruct buffer as [|b0 buffer']; [simpl in Hbuf; lia | reflexivity].
  - intros -> Hbig Hshort. unfold c4error_getMessageC. fold msg.
    assert (Hlen : Z.to_nat (Z.min (Z.of_nat (length msg)) (to_size_t (0 - 1)))
                   = length msg).
    { unfold to_size_t. change ((0 - 1) mod 2 ^ 64)%Z with (2 ^ 64 - 1)%Z. lia. }
    rewrite Hlen.
    destruct (c4error_getMessage what err st) as [m|] eqn:E.
    + unfold memcpy. destruct (length msg <=? length buffer) eqn:L; [|reflexivity].
      apply Nat.leb_le in L. unfold store.
      rewrite length_app, length_skipn, length_firstn.
      replace (length msg <? Nat.min (length msg) (length msg)
                             + (length buffer - length msg)) with false
        by (symmetry; apply Nat.ltb_ge; lia).
      reflexivity.
    + unfold store. replace (length msg <? length buffer) with false
        by (symmetry; apply Nat.ltb_ge; lia).
      reflexivity.
Qed.

End MessageOfError.

Lemma getMessage_of_error_witness :
  let what := fun (_ _ : Z) => "generic message"%string in
  c4error_getMessage what (snd (c4error_make 1 17 "disk full" kInitialErrorMessages))
                     (fst (c4error_make 1 17 "disk full" kInitialErrorMessages))
  = Some "disk full"%string
  /\ c4error_getMessage what (snd (c4error_make 1 17 EmptyString kInitialErrorMessages))
                        (fst (c4error_make 1 17 EmptyString kInitialErrorMessages))
     = Some "generic message"%string
  /\ c4error_getMessage what (mkC4Error 9 17 0) kInitialErrorMessages
     = Some "unknown error domain"%string
  /\ c4error_getMessage what (mkC4Error 1 0 0) kInitialErrorMessages = None.
Proof.
  intros what.
  destruct (getMessage_of_error what (mkC4Error 9 17 0) 1 17 "disk full"
              kInitialErrorMessages) as [_ [Hdomain [Hmade _]]].
  destruct (getMessage_of_error what (mkC4Error 1 0 0) 1 17 "disk full"
              kInitialErrorMessages) as [Hzero [_ [_ Hgeneric]]].
  split; [|split; [|split]].
  - apply Hmade; [exact buffer_ok_initial | unfold kC4MaxErrorDomainPlus1; lia
                  | discriminate | discriminate].
  - apply Hgeneric; [exact buffer_ok_initial | unfold kC4MaxErrorDomainPlus1; lia
                     | discriminate | simpl; lia].
  - apply Hdomain; [discriminate | right; unfold kC4MaxErrorDomainPlus1; simpl; lia].
  - apply Hzero. reflexivity.
Defined.

Lemma getMessageC_truncates_witness :
  let what := fun (_ _ : Z) => "not found"%string in
  c4error_getMessageC what (mkC4Error 1 7 0) (sl "??????") 4 kInitialErrorMessages
  = Some ("n" :: "o" :: "t" :: zero :: sl "??")%char
  /\ c4error_getMessageC what (mkC4Error 1 7 0) (sl "??????") 0 kInitialErrorMessages
     = None.
Proof.
  intros what.
  destruct (getMessageC_truncates what (mkC4Error 1 7 0) (sl "??????") 4
              kInitialErrorMessages) as [Hfit _].
  destruct (getMessageC_truncates what (mkC4Error 1 7 0) (sl "??????") 0
              kInitialErrorMessages) as [_ Hover].
  split.
  - apply Hfit; simpl; lia.
  - apply Hover; [reflexivity | simpl; lia | simpl; lia].
Defined.

(** ** The two sets of codes *)

Lemma code_in_list_iff (l : CodeList) (c : Z) :
  code_in_list l c = true <-> In c (listed_codes l).
Proof.
  induction l as [|c0 rest IH]; simpl.
  - split; [discriminate | tauto].
  - destruct (Z.eqb_spec c0 0) as [_|Hnz]; [split; [discriminate | intros []]|].
    destruct (Z.eqb_spec c0 c) as [->|Hne].
    + split; [now left | reflexivity].
    + rewrite IH. simpl. split; [now right | intros [H|H]; [contradiction | exact H]].
Qed.

Lemma listed_codes_nonzero (l : CodeList) (c : Z) : In c (listed_codes l) -> c <> 0%Z.
Proof.
  induction l as [|c0 rest IH]; simpl; [tauto|].
  destruct (Z.eqb_spec c0 0) as [_|Hnz]; [intros []|].
  intros [<-|H]; [exact Hnz | now apply IH].
Qed.

Lemma listed_codes_terminated (l : list Z) :
  Forall (fun c => c <> 0%Z) l -> listed_codes (l ++ [0%Z]) = l.
Proof.
  induction 1 as [|c l Hc _ IH]; simpl; [reflexivity|].
  apply Z.eqb_neq in Hc. rewrite Hc. now rewrite IH.
Qed.

Lemma domain_in_range (d : Z) :
  domain_value d -> (to_uint32 d < kC4MaxErrorDomainPlus1)%Z ->
  (0 <= d < kC4MaxErrorDomainPlus1)%Z /\ to_uint32 d = d.
Proof.
  unfold domain_value, kC4MaxErrorDomainPlus1, to_uint32. intros Hv Hlt.
  destruct (Z_lt_ge_dec d 0) as [Hneg|Hpos].
  - exfalso. rewrite <- (Z.mod_add d 1 (2 ^ 32)) in Hlt by lia.
    rewrite Z.mod_small in Hlt; lia.
  - rewrite Z.mod_small in * by lia. lia.
Qed.

Lemma errorIsInSet_true (err : C4Error) (set : ErrorSet) :
  errorIsInSet err set = true <->
  (to_uint32 (domain err) < kC4MaxErrorDomainPlus1)%Z
  /\ exists l, registered set (domain err) = Some l /\ In (code err) (listed_codes l).
Proof.
  unfold errorIsInSet, registered. split.
  - destruct (negb (code err =? 0)%Z) eqn:Hc; [|discriminate].
    destruct (to_uint32 (domain err) <? kC4MaxErrorDomainPlus1)%Z eqn:Hd; [|discriminate].
    simpl andb. cbv iota.
    destruct (nth (Z.to_nat (to_uint32 (domain err))) set None) as [l|]; [|discriminate].
    intros H. split; [now apply Z.ltb_lt|]. exists l. split; [reflexivity|].
    now apply code_in_list_iff.
  - intros [Hd [l [Hl Hin]]]. rewrite Hl.
    pose proof (listed_codes_nonzero l (code err) Hin) as Hnz.
    apply Z.eqb_neq in Hnz. rewrite Hnz. apply Z.ltb_lt in Hd. rewrite Hd. simpl.
    now apply code_in_list_iff.
Qed.

(** X11. [errorIsInSet] answers true exactly when the domain is below the
    number of domains, the table has a list for it, and the code occurs in
    that list before the first 0; such a code is never 0. *)
Theorem errorIsInSet_exactly (err : C4Error) (set : ErrorSet) :
  (errorIsInSet err set = true <->
   (to_uint32 (domain err) < kC4MaxErrorDomainPlus1)%Z
   /\ exists l, registered set (domain err) = Some l /\ In (code err) (listed_codes l))
  /\ (errorIsInSet err set = true -> code err <> 0%Z).
Proof.
  split; [apply errorIsInSet_true|].
  intros H. apply errorIsInSet_true in H. destruct H as [_ [l [_ Hin]]].
  now apply (listed_codes_nonzero l).
Qed.

Lemma errorIsInSet_exactly_witness :
  errorIsInSet (mkC4Error 1 42 0) [None; Some [7; 42; 0; 99]%Z] = true
  /\ 42%Z <> 0%Z.
Proof.
  destruct (errorIsInSet_exactly (mkC4Error 1 42 0) [None; Some [7; 42; 0; 99]%Z])
    as [Hiff Hnz].
  assert (H : errorIsInSet (mkC4Error 1 42 0) [None; Some [7; 42; 0; 99]%Z] = true).
  { apply Hiff. split; [reflexivity|].
    exists [7; 42; 0; 99]%Z. split; [reflexivity | simpl; tauto]. }
  split; [exact H | exact (Hnz H)].
Defined.

Section Sets.

Variable k : Platform.
Hypothesis Hnz : codes_nonzero k.

Lemma nonzero_parts :
  Forall (fun c => c <> 0%Z) (transient_posix k)
  /\ Forall (fun c => c <> 0%Z) (unreachable_posix k)
  /\ kC4NetErrDNSFailure k <> 0%Z /\ kC4NetErrUnknownHost k <> 0%Z
  /\ kCodeGoingAway k <> 0%Z.
Proof.
  unfold codes_nonzero in Hnz.
  apply Forall_app in Hnz. destruct Hnz as [H1 H2].
  apply Forall_app in H2. destruct H2 as [H2 H3].
  inversion H3 as [|? ? Hd H4]; subst. inversion H4 as [|? ? Hu H5]; subst.
  inversion H5 as [|? ? Hg _]; subst. repeat split; assumption.
Qed.

Lemma listed_transient_posix : listed_codes (kTransientPOSIX k) = transient_posix k.
Proof.
  destruct nonzero_parts as [H _].
  change (kTransientPOSIX k) with (transient_posix k ++ [0%Z]).
  now apply listed_codes_terminated.
Qed.

Lemma listed_transient_websocket :
  listed_codes (kTransientWebSocket k) = transient_websocket k.
Proof.
  destruct nonzero_parts as [_ [_ [_ [_ Hg]]]].
  change (kTransientWebSocket k) with (transient_websocket k ++ [0%Z]).
  apply listed_codes_terminated. unfold transient_websocket.
  repeat (constructor; [first [exact Hg | discriminate] | idtac]). constructor.
Qed.

Lemma listed_unreachable_posix :
  listed_codes (kUnreachablePOSIX k) = unreachable_posix k.
Proof.
  destruct nonzero_parts as [_ [H _]].
  replace (kUnreachablePOSIX k) with (unreachable_posix k ++ [0%Z]).
  - now apply listed_codes_terminated.
  - unfold kUnreachablePOSIX, unreachable_posix. destruct (MSC_VER k); reflexivity.
Qed.

Lemma listed_network :
  listed_codes (kTransientNetwork k) = [kC4NetErrDNSFailure k]
  /\ listed_codes (kUnreachableNetwork k)
     = [kC4NetErrDNSFailure k; kC4NetErrUnknownHost k].
Proof.
  destruct nonzero_parts as [_ [_ [Hd [Hu _]]]].
  unfold kTransientNetwork, kUnreachableNetwork. simpl.
  apply Z.eqb_neq in Hd. apply Z.eqb_neq in Hu. rewrite Hd, Hu. split; reflexivity.
Qed.

(** X12. When none of the named codes is 0, [c4error_mayBeTransient] answers
    true exactly for the five POSIX codes of its list, for the DNS failure of
    the network domain, and for the six HTTP statuses and the going-away code
    of the WebSocket domain. *)
Theorem transient_exactly (err : C4Error) :
  domain_value (domain err) ->
  (c4error_mayBeTransient k err = true <->
   (domain err = POSIXDomain /\ In (code err) (transient_posix k))
   \/ (domain err = NetworkDomain /\ code err = kC4NetErrDNSFailure k)
   \/ (domain err = WebSocketDomain /\ In (code err) (transient_websocket k))).
Proof.
  intros Hv. unfold c4error_mayBeTransient. rewrite errorIsInSet_true.
  destruct listed_network as [Hnet _].
  unfold POSIXDomain, NetworkDomain, WebSocketDomain. split.
  - intros [Hd [l [Hl Hin]]].
    destruct (domain_in_range (domain err) Hv Hd) as [Hr _].
    unfold kC4MaxErrorDomainPlus1 in Hr.
    assert (Hcases : (domain err = 0 \/ domain err = 1 \/ domain err = 2
                      \/ domain err = 3 \/ domain err = 4 \/ domain err = 5
                      \/ domain err = 6)%Z) by lia.
    destruct Hcases as [E|[E|[E|[E|[E|[E|E]]]]]]; rewrite E in Hl;
      try discriminate Hl; injection Hl as <-.
    + left. rewrite listed_transient_posix in Hin. auto.
    + right. left. rewrite Hnet in Hin. destruct Hin as [<-|[]]. auto.
    + right. right. rewrite listed_transient_websocket in Hin. auto.
  - intros [[E Hin]|[[E Hc]|[E Hin]]]; rewrite E; (split; [reflexivity|]).
    + exists (kTransientPOSIX k). split; [reflexivity|].
      now rewrite listed_transient_posix.
    + exists (kTransientNetwork k). split; [reflexivity|].
      rewrite Hnet, Hc. now left.
    + exists (kTransientWebSocket k). split; [reflexivity|].
      now rewrite listed_transient_websocket.
Qed.

(** X13. When none of the named codes is 0, [c4error_mayBeNetworkDependent]
    answers true exactly for the POSIX codes of its list (with [EHOSTDOWN]
    unless the build defines [_MSC_VER]) and for the DNS failure and the
    unknown host of the network domain; never for a WebSocket code. *)
Theorem network_dependent_exactly (err : C4Error) :
  domain_value (domain err) ->
  (c4error_mayBeNetworkDependent k err = true <->
   (domain err = POSIXDomain /\ In (code err) (unreachable_posix k))
   \/ (domain err = NetworkDomain
       /\ (code err = kC4NetErrDNSFailure k \/ code err = kC4NetErrUnknownHost k))).
Proof.
  intros Hv. unfold c4error_mayBeNetworkDependent. rewrite errorIsInSet_true.
  destruct listed_network as [_ Hnet].
  unfold POSIXDomain, NetworkDomain. split.
  - intros [Hd [l [Hl Hin]]].
    destruct (domain_in_range (domain err) Hv Hd) as [Hr _].
    unfold kC4MaxErrorDomainPlus1 in Hr.
    assert (Hcases : (domain err = 0 \/ domain err = 1 \/ domain err = 2
                      \/ domain err = 3 \/ domain err = 4 \/ domain err = 5
                      \/ domain err = 6)%Z) by lia.
    destruct Hcases as [E|[E|[E|[E|[E|[E|E]]]]]]; rewrite E in Hl;
      try discriminate Hl; injection Hl as <-.
    + left. rewrite listed_unreachable_posix in Hin. auto.
    + right. rewrite Hnet in Hin. destruct Hin as [<-|[<-|[]]]; auto.
  - intros [[E Hin]|[E Hc]]; rewrite E; (split; [reflexivity|]).
    + exists (kUnreachablePOSIX k). split; [reflexivity|].
      now rewrite listed_unreachable_posix.
    + exists (kUnreachableNetwork k). split; [reflexivity|].
      rewrite Hnet. destruct Hc as [-> | ->]; simpl; auto.
Qed.

End Sets.

Lemma codes_nonzero_linux : codes_nonzero kLinux.
Proof.
  unfold codes_nonzero. apply Forall_forall. intros c Hin. simpl in Hin.
  repeat destruct Hin as [<-|Hin]; try discriminate. destruct Hin.
Qed.

Lemma transient_exactly_witness :
  c4error_mayBeTransient kLinux (mkC4Error POSIXDomain 104 0) = true
  /\ c4error_mayBeTransient kLinux (mkC4Error WebSocketDomain 503 0) = true.
Proof.
  split.
  - apply (transient_exactly kLinux codes_nonzero_linux (mkC4Error POSIXDomain 104 0)).
    + unfold domain_value, POSIXDomain, NetworkDomain, WebSocketDomain. simpl. lia.
    + left. split; [reflexivity | simpl; tauto].
  - apply (transient_exactly kLinux codes_nonzero_linux (mkC4Error WebSocketDomain 503 0)).
    + unfold domain_value, POSIXDomain, NetworkDomain, WebSocketDomain. simpl. lia.
    + right. right. split; [reflexivity | simpl; tauto].
Defined.

Lemma network_dependent_exactly_witness :
  c4error_mayBeNetworkDependent kLinux (mkC4Error POSIXDomain 112 0) = true
  /\ c4error_mayBeNetworkDependent kLinux (mkC4Error NetworkDomain 2 0) = true.
Proof.
  split.
  - apply (network_dependent_exactly kLinux codes_nonzero_linux
             (mkC4Error POSIXDomain 112 0)).
    + unfold domain_value, POSIXDomain, NetworkDomain, WebSocketDomain. simpl. lia.
    + left. split; [reflexivity | simpl; tauto].
  - apply (network_dependent_exactly kLinux codes_nonzero_linux
             (mkC4Error NetworkDomain 2 0)).
    + unfold domain_value, POSIXDomain, NetworkDomain, WebSocketDomain. simpl. lia.
    + right. split; [reflexivity | now right].
Defined.

(** X14. Whatever the values of the codes, a network-domain error that may be
    transient is also network-dependent. *)
Theorem network_transient_is_network_dependent (k : Platform) (c info : Z) :
  c4error_mayBeTransient k (mkC4Error NetworkDomain c info) = true ->
  c4error_mayBeNetworkDependent k (mkC4Error NetworkDomain c info) = true.
Proof.
  unfold c4error_mayBeTransient, c4error_mayBeNetworkDependent, errorIsInSet.
  simpl code. simpl domain.
  destruct (Z.eqb_spec c 0) as [->|Hc]; [discriminate|].
  simpl.
  destruct (Z.eqb_spec (kC4NetErrDNSFailure k) 0) as [_|Hd]; [discriminate|].
  destruct (Z.eqb_spec (kC4NetErrDNSFailure k) c) as [_|Hne]; [reflexivity|].
  discriminate.
Qed.

Lemma network_transient_is_network_dependent_witness :
  c4error_mayBeNetworkDependent kLinux (mkC4Error NetworkDomain 1 0) = true.
Proof.
  apply (network_transient_is_network_dependent kLinux 1 0). reflexivity.
Defined.

(** ** Notifications, callbacks and lifetime *)

(** What one notification changes and what it leaves alone. *)
Lemma notification_effect (c : C4Replicator) (repl : ptr) (newStatus : C4ReplicatorStatus) :
  let c' := fst (replicatorStatusChanged c repl newStatus) in
  _replicator c' = _replicator c
  /\ _otherReplicator c' = _otherReplicator c
  /\ _onStateChanged c' = _onStateChanged c
  /\ _callbackContext c' = _callbackContext c
  /\ status c' = (if from_primary c (repl, newStatus) then newStatus else status c)
  /\ _otherLevel c'
     = (if from_peer c (repl, newStatus) then level newStatus else _otherLevel c)
  /\ snd (replicatorStatusChanged c repl newStatus)
     = (if from_primary c (repl, newStatus)
        then match _onStateChanged c with
             | Some on => [(on, newStatus, _callbackContext c)]
             | None => []
             end
        else []).
Proof.
  destruct c as [on ctx p q s l sr rc].
  unfold replicatorStatusChanged, record_status, release_when_stopped, both_stopped,
    from_primary, from_peer, notify, status.
  simpl.
  destruct (repl =? p); simpl.
  - destruct (level_eqb (level newStatus) kC4Stopped && level_eqb l kC4Stopped);
      destruct on; simpl; repeat split.
  - destruct q as [other|]; simpl.
    + destruct (repl =? other); simpl;
        match goal with
        | |- context [if ?b then clear_selfRetain _ else _] => destruct b
        end; simpl; repeat split.
    + destruct (level_eqb (level s) kC4Stopped && level_eqb l kC4Stopped);
        simpl; repeat split.
Qed.

Lemma last_cons_default (A : Type) (x d : A) (l : list A) :
  last (x :: l) d = last l x.
Proof.
  revert x d. induction l as [|y l IH]; intros x d; [reflexivity|].
  change (last (x :: y :: l) d) with (last (y :: l) d).
  now rewrite (IH y d), (IH y x).
Qed.

Lemma filter_ext_replicator (c c' : C4Replicator) (ns : list Notification) :
  _replicator c' = _replicator c -> _otherReplicator c' = _otherReplicator c ->
  filter (from_primary c') ns = filter (from_primary c) ns
  /\ filter (from_peer c') ns = filter (from_peer c) ns.
Proof.
  intros Hr Ho. split; apply filter_ext; intros n;
    unfold from_primary, from_peer; now rewrite Hr, ?Ho.
Qed.

Lemma deliver_levels (ns : list Notification) :
  forall c : C4Replicator,
  status (deliver c ns) = last (map snd (filter (from_primary c) ns)) (status c)
  /\ _otherLevel (deliver c ns)
     = last (map (fun n => level (snd n)) (filter (from_peer c) ns)) (_otherLevel c)
  /\ _replicator (deliver c ns) = _replicator c
  /\ _otherReplicator (deliver c ns) = _otherReplicator c.
Proof.
  induction ns as [|[repl st] rest IH]; intros c; [repeat split|].
  simpl deliver.
  destruct (notification_effect c repl st) as [Hr [Ho [_ [_ [Hs [Hl _]]]]]].
  set (c1 := fst (replicatorStatusChanged c repl st)) in *.
  destruct (IH c1) as [IHs [IHl [IHr IHo]]].
  destruct (filter_ext_replicator c c1 rest Hr Ho) as [Fp Fq].
  rewrite IHs, IHl, IHr, IHo, Fp, Fq, Hs, Hl, Hr, Ho.
  simpl filter.
  destruct (from_primary c (repl, st)), (from_peer c (repl, st)); simpl map;
    rewrite ?last_cons_default; repeat split.
Qed.

Lemma deliver_calls_spec (ns : list Notification) :
  forall c : C4Replicator,
  deliver_calls c ns
  = match _onStateChanged c with
    | Some on => map (fun n => (on, snd n, _callbackContext c)) (filter (from_primary c) ns)
    | None => []
    end.
Proof.
  induction ns as [|[repl st] rest IH]; intros c.
  - simpl. now destruct (_onStateChanged c).
  - simpl deliver_calls.
    destruct (notification_effect c repl st) as [Hr [Ho [Hon [Hctx [_ [_ Hcalls]]]]]].
    set (c1 := fst (replicatorStatusChanged c repl st)) in *.
    destruct (filter_ext_replicator c c1 rest Hr Ho) as [Fp _].
    rewrite (IH c1), Hcalls, Hon, Hctx, Fp. simpl filter.
    destruct (from_primary c (repl, st)), (_onStateChanged c); reflexivity.
Qed.

(** X15. The status callback is called once for each notification of the
    primary engine, in their order, with the status notified and the context
    given at creation; notifications of the peer call nothing, and after
    [detach] nothing is called at all. *)
Theorem callbacks_follow_primary (c : C4Replicator) (ns : list Notification) :
  (forall on, _onStateChanged c = Some on ->
   deliver_calls c ns
   = map (fun n => (on, snd n, _callbackContext c)) (filter (from_primary c) ns))
  /\ deliver_calls (detach c) ns = [].
Proof.
  split.
  - intros on Hon. now rewrite deliver_calls_spec, Hon.
  - now rewrite deliver_calls_spec.
Qed.

Lemma callbacks_follow_primary_witness :
  let busy := mkStatus kC4Busy (1, 2)%Z kNoError in
  let idle := mkStatus kC4Idle (2, 2)%Z kNoError in
  let c := mkC4Replicator (Some 7) 9 0 (Some 1) busy kC4Busy true 2 in
  deliver_calls c [(0, busy); (1, idle); (0, idle)] = [(7, busy, 9); (7, idle, 9)].
Proof.
  intros busy idle c.
  destruct (callbacks_follow_primary c [(0, busy); (1, idle); (0, idle)]) as [H _].
  apply (H 7). reflexivity.
Defined.

(** X16. The status the controller reports is the one of the latest
    notification of the primary engine (the status at creation if there was
    none), and the peer level it keeps is the level of the latest notification
    of the peer: notifications of the peer never show in the status. *)
Theorem status_follows_primary (c : C4Replicator) (ns : list Notification) :
  c4repl_getStatus (deliver c ns)
  = last (map snd (filter (from_primary c) ns)) (status c)
  /\ _otherLevel (deliver c ns)
     = last (map (fun n => level (snd n)) (filter (from_peer c) ns)) (_otherLevel c).
Proof.
  destruct (deliver_levels ns c) as [Hs [Hl _]]. split; assumption.
Qed.



Lemma refCount_deliver (ns : list Notification) :
  forall c : C4Replicator,
  refCount (deliver c ns)
  = (if _selfRetain c && negb (_selfRetain (deliver c ns))
     then pred (refCount c) else refCount c).
Proof.
  induction ns as [|[repl st] rest IH]; intros c.
  - simpl. now destruct (_selfRetain c).
  - simpl deliver.
    destruct (replicatorStatusChanged_release c repl st) as [Hs Hr].
    set (c1 := fst (replicatorStatusChanged c repl st)) in *.
    rewrite (IH c1), Hr, Hs.
    destruct (_selfRetain c) eqn:Hc; simpl.
    + destruct (both_stopped c1) eqn:Hb; simpl.
      * assert (H1 : _selfRetain c1 = false) by (rewrite Hs; reflexivity).
        destruct (released_stays_released rest c1 H1) as [-> _]. reflexivity.
      * reflexivity.
    + reflexivity.
Qed.

Lemma step_release_detach (c : C4Replicator) (repl : ptr) (st : C4ReplicatorStatus) :
  fst (replicatorStatusChanged (release (detach c)) repl st)
  = release (detach (fst (replicatorStatusChanged c repl st))).
Proof.
  destruct c as [on ctx p q s l sr rc].
  unfold replicatorStatusChanged, record_status, release_when_stopped, both_stopped,
    release, detach, clear_selfRetain, status.
  simpl.
  destruct (repl =? p); simpl.
  - destruct (level_eqb (level st) kC4Stopped && level_eqb l kC4Stopped);
      simpl; destruct sr; reflexivity.
  - destruct q as [other|]; simpl.
    + destruct (repl =? other); simpl;
        match goal with
        | |- context [if ?b then _ else _] => destruct b
        end; simpl; destruct sr; reflexivity.
    + destruct (level_eqb (level s) kC4Stopped && level_eqb l kC4Stopped);
        simpl; destruct sr; reflexivity.
Qed.

Lemma deliver_release_detach (ns : list Notification) :
  forall c : C4Replicator,
  deliver (release (detach c)) ns = release (detach (deliver c ns)).
Proof.
  induction ns as [|[repl st] rest IH]; intros c; [reflexivity|].
  simpl deliver. rewrite step_release_detach. apply IH.
Qed.

(** X18. For a controller that holds its self-reference and one reference of
    the client (count 2, as [c4repl_new] returns it): whatever is notified
    before and after the client calls [c4repl_free], the count is at least 1
    until the call, the call asks the primary engine to stop and silences the
    callback, and the count ends at 0 exactly when some notification left both
    levels stopped. *)
Theorem controller_lifetime (c : C4Replicator) (before after : list Notification) :
  _selfRetain c = true -> refCount c = 2 ->
  exists c2,
    c4repl_free (Some (deliver c before)) = Some (c2, _replicator c)
    /\ 1 <= refCount (deliver c before)
    /\ deliver_calls c2 after = []
    /\ (refCount (deliver c2 after) = 0 <->
        exists k, k < length (before ++ after)
                  /\ both_stopped (deliver c (firstn (S k) (before ++ after))) = true).
Proof.
  intros Hretain Hcount.
  exists (release (detach (deliver c before))).
  destruct (deliver_levels before c) as [_ [_ [Hrepl _]]].
  split; [unfold c4repl_free, stop; now rewrite Hrepl|].
  split.
  { rewrite refCount_deliver, Hretain, Hcount.
    destruct (negb (_selfRetain (deliver c before))); simpl; lia. }
  split.
  { rewrite deliver_calls_spec. reflexivity. }
  rewrite deliver_release_detach, <- deliver_app.
  rewrite <- (released_iff_stopped_seen (before ++ after) c Hretain).
  unfold release, detach. simpl refCount.
  rewrite refCount_deliver, Hretain, Hcount.
  destruct (_selfRetain (deliver c (before ++ after))); simpl; split;
    try reflexivity; try discriminate; lia.
Qed.

Lemma controller_lifetime_witness :
  let stopped := mkStatus kC4Stopped (0, 0)%Z kNoError in
  let busy := mkStatus kC4Busy (0, 0)%Z kNoError in
  let c := mkC4Replicator (Some 7) 0 0 (Some 1) busy kC4Busy true 2 in
  exists c2,
    c4repl_free (Some (deliver c [(1, stopped)])) = Some (c2, 0)
    /\ refCount (deliver c2 [(0, stopped)]) = 0.
Proof.
  intros stopped busy c.
  destruct (controller_lifetime c [(1, stopped)] [(0, stopped)] eq_refl eq_refl)
    as [c2 [Hfree [_ [_ Hzero]]]].
  exists c2. split; [exact Hfree|].
  apply Hzero. exists 1. split; [simpl; lia | reflexivity].
Defined.

(** ** Creating a session *)

Section NewSession.

Variable initial_status : Replicator -> C4ReplicatorStatus.
Variable c4db_openAgain : C4Database -> C4Database + C4Error.
Variable c4db_getPath : C4Database -> list ascii.
Variable throws : Throws.

Lemma mode_eqb_eq (a b : C4ReplicatorMode) : mode_eqb a b = true <-> a = b.
Proof. destruct a, b; simpl; split; congruence. Qed.

Lemma modes_enabled (push pull : C4ReplicatorMode) :
  mode_eqb push kC4Disabled && mode_eqb pull kC4Disabled = false
  <-> push <> kC4Disabled \/ pull <> kC4Disabled.
Proof.
  rewrite andb_false_iff. split.
  - intros [H|H]; [left|right]; intros Heq; rewrite Heq in H; discriminate.
  - intros [H|H]; [left|right];
      destruct (mode_eqb _ kC4Disabled) eqn:E; try reflexivity;
      apply mode_eqb_eq in E; contradiction.
Qed.

Lemma printed_bytes_no_NUL (s : slice) :
  ~ In zero (bytes s) -> printed_bytes s = bytes s.
Proof.
  intros H. unfold printed_bytes, findByteOrEnd.
  apply findByte_None in H. rewrite H. apply firstn_all.
Qed.

Lemma valid_name_no_NUL (name : slice) :
  c4repl_isValidDatabaseName name = true -> ~ In zero (bytes name).
Proof.
  intros Hv Hin. apply isValidDatabaseName_spec in Hv.
  destruct Hv as [_ [_ Hall]]. rewrite Forall_forall in Hall.
  specialize (Hall zero Hin). apply name_charb_spec in Hall. discriminate Hall.
Qed.

(** X19. [c4repl_new] returns a session exactly when push or pull is enabled,
    the database can be opened again, no collaborator throws while the
    controller is constructed, and either the other local database is a
    different handle that can be opened again too, or there is none and the
    scheme of the server address is one of the four valid ones. *)
Theorem c4repl_new_succeeds_iff
    (w : World) (db : C4Database) (serverAddress : C4Address)
    (remoteDatabaseName : slice) (otherLocalDB : option C4Database)
    (push pull : C4ReplicatorMode) (cb : option nat) (ctx : nat) :
  (exists w' c,
     c4repl_new initial_status c4db_openAgain c4db_getPath throws w db serverAddress
                remoteDatabaseName otherLocalDB push pull cb ctx = (w', inl c))
  <->
  (push <> kC4Disabled \/ pull <> kC4Disabled)
  /\ exists dbCopy,
       c4db_openAgain db = inl dbCopy
       /\ operator_new_throws throws = None
       /\ match otherLocalDB with
          | Some other =>
              other <> db
              /\ exists otherCopy,
                   c4db_openAgain other = inl otherCopy
                   /\ loopbackProvider_throws throws = None
                   /\ addressFrom_throws throws (addressFrom_local c4db_getPath otherCopy)
                      = None
                   /\ Replicator_throws throws
                        (local_primary_engine c4db_getPath dbCopy otherCopy push pull)
                      = None
                   /\ addressFrom_throws throws (addressFrom_local c4db_getPath dbCopy)
                      = None
                   /\ createWebSocket_throws throws (addressFrom_local c4db_getPath dbCopy)
                      = None
                   /\ Replicator_throws throws
                        (local_peer_engine c4db_getPath dbCopy otherCopy) = None
                   /\ connect_throws throws (length (engines w))
                                     (S (length (engines w))) = None
          | None =>
              isValidScheme (scheme serverAddress) = true
              /\ DefaultProvider_throws throws = None
              /\ addressFrom_throws throws
                   (addressFrom_remote serverAddress remoteDatabaseName) = None
              /\ Replicator_throws throws
                   (remote_engine dbCopy serverAddress remoteDatabaseName push pull)
                 = None
          end.
Proof.
  unfold c4repl_new. rewrite <- modes_enabled. split.
  - intros [w' [c H]].
    destruct (mode_eqb push kC4Disabled && mode_eqb pull kC4Disabled);
      [discriminate|].
    split; [reflexivity|].
    destruct (c4db_openAgain db) as [dbCopy|e]; [|discriminate].
    exists dbCopy. split; [reflexivity|].
    destruct otherLocalDB as [other|].
    + destruct (other =? db) eqn:Hsame; [discriminate|].
      apply Nat.eqb_neq in Hsame.
      destruct (c4db_openAgain other) as [oc|e]; [|discriminate].
      rewrite try_new_run, C4Replicator_local_run in H. cbv zeta in H.
      destruct (operator_new_throws throws); [discriminate|].
      split; [reflexivity|]. split; [exact Hsame|].
      exists oc. split; [reflexivity|].
      destruct (loopbackProvider_throws throws); [discriminate|].
      destruct (addressFrom_throws throws (addressFrom_local _ oc)); [discriminate|].
      destruct (Replicator_throws throws (local_primary_engine _ _ _ _ _));
        [discriminate|].
      destruct (addressFrom_throws throws (addressFrom_local _ dbCopy));
        [discriminate|].
      destruct (createWebSocket_throws throws _); [discriminate|].
      destruct (Replicator_throws throws (local_peer_engine _ _ _)); [discriminate|].
      destruct (connect_throws throws _ _); [discriminate|].
      repeat split.
    + destruct (isValidScheme (scheme serverAddress)); [|discriminate].
      cbn [negb] in H.
      rewrite try_new_run, C4Replicator_remote_run in H. cbv zeta in H.
      destruct (operator_new_throws throws); [discriminate|].
      destruct (DefaultProvider_throws throws); [discriminate|].
      destruct (addressFrom_throws throws _); [discriminate|].
      destruct (Replicator_throws throws _); [discriminate|].
      repeat split.
  - intros [Hmodes [dbCopy [Hdb [Hnew Hother]]]].
    rewrite Hmodes, Hdb. destruct otherLocalDB as [other|].
    + destruct Hother as [Hne [oc [Hoc [H1 [H2 [H3 [H4 [H5 [H6 H7]]]]]]]]].
      apply Nat.eqb_neq in Hne. rewrite Hne, Hoc.
      rewrite try_new_run, C4Replicator_local_run. cbv zeta.
      rewrite Hnew, H1, H2, H3, H4, H5, H6, H7. eexists. eexists. reflexivity.
    + destruct Hother as [Hv [H1 [H2 H3]]]. rewrite Hv. cbn [negb].
      rewrite try_new_run, C4Replicator_remote_run. cbv zeta.
      rewrite Hnew, H1, H2, H3. eexists. eexists. reflexivity.
Qed.


(** X21. A session for a remote database, as [c4repl_new] returns it: one
    engine has been created, on the reopened database, with the default
    provider, the caller's modes and the address of the server with the path
    that [format] prints, ["/<name>/_blipsync"] with the name cut at its first
    NUL byte if it has one; the controller has no peer, holds its
    self-reference and the client's reference (count 2), keeps the callback
    and its context, and reports the engine's status at construction. *)
Theorem remote_session_shape
    (w : World) (db : C4Database) (serverAddress : C4Address)
    (remoteDatabaseName : slice) (push pull : C4ReplicatorMode)
    (cb : option nat) (ctx : nat) (w' : World) (c : C4Replicator) :
  c4repl_new initial_status c4db_openAgain c4db_getPath throws w db serverAddress
             remoteDatabaseName None push pull cb ctx = (w', inl c) ->
  exists dbCopy,
    let r := mkReplicator dbCopy DefaultProvider
               (mkAddress (bytes (scheme serverAddress)) (bytes (hostname serverAddress))
                          (port serverAddress)
                          (sl "/" ++ printed_bytes remoteDatabaseName ++ sl "/_blipsync"))
               (mkOptions push pull) in
    c4db_openAgain db = inl dbCopy
    /\ engines w' = engines w ++ [r]
    /\ connected w' = connected w
    /\ engine w' (_replicator c) = Some r
    /\ _otherReplicator c = None /\ _otherLevel c = kC4Stopped
    /\ _selfRetain c = true /\ refCount c = 2
    /\ _onStateChanged c = cb /\ _callbackContext c = ctx
    /\ c4repl_getStatus c = initial_status r
    /\ (~ In zero (bytes remoteDatabaseName) ->
        a_path (r_address r) = sl "/" ++ bytes remoteDatabaseName ++ sl "/_blipsync")
    /\ (forall a b, bytes remoteDatabaseName = a ++ zero :: b -> ~ In zero a ->
        a_path (r_address r) = sl "/" ++ a ++ sl "/_blipsync").
Proof.
  unfold c4repl_new.
  destruct (mode_eqb push kC4Disabled && mode_eqb pull kC4Disabled); [discriminate|].
  destruct (c4db_openAgain db) as [dbCopy|err]; [|discriminate].
  destruct (isValidScheme (scheme serverAddress)); [|discriminate].
  cbn [negb]. rewrite try_new_run, C4Replicator_remote_run. cbv zeta.
  destruct (operator_new_throws throws); [discriminate|].
  destruct (DefaultProvider_throws throws); [discriminate|].
  destruct (addressFrom_throws throws _); [discriminate|].
  destruct (Replicator_throws throws _); [discriminate|].
  intros [= <- <-]. exists dbCopy. cbv zeta.
  unfold engine, retain, remote_engine, addressFrom_remote, sl_format_blipsync,
    c4repl_getStatus, status.
  cbn [engines connected _replicator _otherReplicator _otherLevel _selfRetain refCount
       _onStateChanged _callbackContext _status r_address a_path].
  rewrite nth_error_app2 by lia. rewrite Nat.sub_diag.
  split; [reflexivity|]. split; [reflexivity|]. split; [reflexivity|].
  split; [reflexivity|]. split; [reflexivity|]. split; [reflexivity|].
  split; [reflexivity|]. split; [reflexivity|]. split; [reflexivity|].
  split; [reflexivity|]. split; [reflexivity|]. split.
  - intros Hn. now rewrite printed_bytes_no_NUL.
  - intros a b Hab Ha. unfold printed_bytes. rewrite Hab.
    rewrite (findByteOrEnd_app a (zero :: b) zero Ha), findByteOrEnd_head, Nat.add_0_r.
    rewrite firstn_app, Nat.sub_diag, firstn_all. simpl. now rewrite app_nil_r.
Qed.

(** X22. An address and a database name that [c4repl_parseURL] has accepted
    are accepted by [c4repl_new]: with push or pull enabled, a database that
    can be opened again and no exception from the allocation, the provider,
    the address or the engine's constructor, the session is created, and its
    engine gets the scheme, host and port of the URL and the path
    ["/<name>/_blipsync"]. *)
Theorem parse_then_new
    (u : slice) (a0 : C4Address) (d0 : slice) (w : World) (db dbCopy : C4Database)
    (push pull : C4ReplicatorMode) (cb : option nat) (ctx : nat) :
  parse_ok (c4repl_parseURL u a0 d0) = true ->
  push <> kC4Disabled \/ pull <> kC4Disabled ->
  c4db_openAgain db = inl dbCopy ->
  let address := parse_address (c4repl_parseURL u a0 d0) in
  let name := parse_dbName (c4repl_parseURL u a0 d0) in
  operator_new_throws throws = None ->
  DefaultProvider_throws throws = None ->
  addressFrom_throws throws (addressFrom_remote address name) = None ->
  Replicator_throws throws (remote_engine dbCopy address name push pull) = None ->
  exists w' c,
    c4repl_new initial_status c4db_openAgain c4db_getPath throws w db address name None
               push pull cb ctx = (w', inl c)
    /\ engine w' (_replicator c)
       = Some (mkReplicator dbCopy DefaultProvider
                 (mkAddress (bytes (scheme address)) (bytes (hostname address))
                            (port address) (sl "/" ++ bytes name ++ sl "/_blipsync"))
                 (mkOptions push pull)).
Proof.
  intros Hok Hmodes Hdb address name Hnew Hprov Haddr Hctor.
  assert (Hpieces : isValidScheme (scheme address) = true
                    /\ c4repl_isValidDatabaseName name = true).
  { destruct u as [|str]; [discriminate Hok|].
    destruct (parseURL_success_pieces str a0 d0 Hok)
      as [s [host [digits [body [n [_ [Hs [_ [_ [_ [Hname E]]]]]]]]]]].
    unfold address, name. rewrite E. unfold parse_address, parse_dbName. simpl.
    split; [now apply isValidScheme_In | exact Hname]. }
  destruct Hpieces as [Hscheme Hname].
  unfold c4repl_new.
  apply modes_enabled in Hmodes. rewrite Hmodes, Hdb, Hscheme. cbn [negb].
  rewrite try_new_run, C4Replicator_remote_run. cbv zeta.
  rewrite Hnew, Hprov, Haddr, Hctor.
  eexists. eexists. split; [reflexivity|].
  unfold engine, retain, remote_engine, addressFrom_remote, sl_format_blipsync.
  cbn [engines _replicator].
  rewrite nth_error_app2 by lia. rewrite Nat.sub_diag.
  rewrite (printed_bytes_no_NUL name (valid_name_no_NUL name Hname)). reflexivity.
Qed.

End NewSession.

Lemma c4repl_new_succeeds_iff_witness :
  exists w' c,
    c4repl_new (fun _ => mkStatus kC4Connecting (0, 0)%Z kNoError)
               (fun d => inl (d + 10)) (fun _ => sl "/var/db.cblite2") kNoThrow
               (mkWorld [] []) 1 kAddressUnset nullslice (Some 2)
               kC4Disabled kC4Continuous None 0 = (w', inl c).
Proof.
  apply (c4repl_new_succeeds_iff
           (fun _ => mkStatus kC4Connecting (0, 0)%Z kNoError)
           (fun d => inl (d + 10)) (fun _ => sl "/var/db.cblite2") kNoThrow
           (mkWorld [] []) 1 kAddressUnset nullslice (Some 2)
           kC4Disabled kC4Continuous None 0).
  split; [right; discriminate|]. exists 11. split; [reflexivity|].
  split; [reflexivity|]. split; [discriminate|]. exists 12.
  split; [reflexivity|]. split; [reflexivity|]. split; [reflexivity|].
  split; [reflexivity|]. split; [reflexivity|]. split; [reflexivity|].
  split; reflexivity.
Defined.


Lemma remote_session_shape_witness :
  exists w' c,
    c4repl_new (fun _ => mkStatus kC4Connecting (0, 0)%Z kNoError)
               (fun d => inl (d + 10)) (fun _ => sl "/var/db.cblite2") kNoThrow
               (mkWorld [] []) 1 (mkC4Address (url "blip") (url "host") 4984 (url "/"))
               (url "db") None kC4OneShot kC4Disabled (Some 3) 4 = (w', inl c)
    /\ engine w' (_replicator c)
       = Some (mkReplicator 11 DefaultProvider
                 (mkAddress (sl "blip") (sl "host") 4984 (sl "/db/_blipsync"))
                 (mkOptions kC4OneShot kC4Disabled))
    /\ refCount c = 2.
Proof.
  eexists. eexists. split; [reflexivity|].
  destruct (remote_session_shape
              (fun _ => mkStatus kC4Connecting (0, 0)%Z kNoError)
              (fun d => inl (d + 10)) (fun _ => sl "/var/db.cblite2") kNoThrow
              (mkWorld [] []) 1 (mkC4Address (url "blip") (url "host") 4984 (url "/"))
              (url "db") kC4OneShot kC4Disabled (Some 3) 4 _ _ eq_refl)
    as [dbCopy [Hopen [_ [_ [Hengine [_ [_ [_ [Hcount _]]]]]]]]].
  injection Hopen as <-.
  split; [exact Hengine | exact Hcount].
Defined.

Lemma parse_then_new_witness :
  let r := c4repl_parseURL (url "blips://example.org/travel") kAddressUnset nullslice in
  exists w' c,
    c4repl_new (fun _ => mkStatus kC4Connecting (0, 0)%Z kNoError)
               (fun d => inl (d + 10)) (fun _ => sl "/var/db.cblite2") kNoThrow
               (mkWorld [] []) 1 (parse_address r) (parse_dbName r) None
               kC4Continuous kC4Continuous None 0 = (w', inl c)
    /\ engine w' (_replicator c)
       = Some (mkReplicator 11 DefaultProvider
                 (mkAddress (bytes (scheme (parse_address r)))
                            (bytes (hostname (parse_address r)))
                            (port (parse_address r))
                            (sl "/" ++ bytes (parse_dbName r) ++ sl "/_blipsync"))
                 (mkOptions kC4Continuous kC4Continuous)).
Proof.
  apply (parse_then_new
           (fun _ => mkStatus kC4Connecting (0, 0)%Z kNoError)
           (fun d => inl (d + 10)) (fun _ => sl "/var/db.cblite2") kNoThrow
           (url "blips://example.org/travel") kAddressUnset nullslice
           (mkWorld [] []) 1 11 kC4Continuous kC4Continuous None 0).
  - reflexivity.
  - left. discriminate.
  - reflexivity.
  - reflexivity.
  - reflexivity.
  - reflexivity.
  - reflexivity.
Defined.

(** ** The self-reference of a local session *)

Lemma levels_of_deliver (c : C4Replicator) (ns : list Notification) :
  level (status (deliver c ns)) = primary_level c ns
  /\ _otherLevel (deliver c ns) = peer_level c ns.
Proof.
  destruct (deliver_levels ns c) as [Hs [Hl _]].
  unfold primary_level, peer_level. now rewrite Hs, Hl.
Qed.

Lemma both_stopped_deliver (c : C4Replicator) (ns : list Notification) :
  both_stopped (deliver c ns) = true
  <-> primary_level c ns = kC4Stopped /\ peer_level c ns = kC4Stopped.
Proof.
  rewrite both_stopped_iff. destruct (levels_of_deliver c ns) as [-> ->]. tauto.
Qed.

Lemma deliver_snoc (c : C4Replicator) (ns : list Notification) (repl : ptr)
    (newStatus : C4ReplicatorStatus) :
  deliver c (ns ++ [(repl, newStatus)])
  = fst (replicatorStatusChanged (deliver c ns) repl newStatus).
Proof. now rewrite deliver_app. Qed.

Section LocalSession.

Variable initial_status : Replicator -> C4ReplicatorStatus.
Variable c4db_openAgain : C4Database -> C4Database + C4Error.
Variable c4db_getPath : C4Database -> list ascii.
Variable throws : Throws.

(** C1. In a local-to-local session, as [c4repl_new] returns it, the
    controller holds its self-reference next to the client's reference (count
    2), and knows of each engine the level the engine had at construction.
    From then on the level of an engine is the level of its latest
    notification.  After any notification, whoever sent it, a self-reference
    still held is released, and the count drops to 1, if and only if the
    primary's level and the peer's level are both stopped; otherwise it stays
    held and the count stays 2.  So along any run of notifications the
    self-reference has been released exactly when some notification left both
    levels stopped, never while one of the two levels was not stopped, and the
    count is dropped once only. *)
Theorem self_reference_released_iff_both_stopped
    (w : World) (db other : C4Database) (serverAddress : C4Address)
    (remoteDatabaseName : slice) (push pull : C4ReplicatorMode)
    (cb : option nat) (ctx : nat) (w' : World) (c : C4Replicator) :
  c4repl_new initial_status c4db_openAgain c4db_getPath throws w db serverAddress
             remoteDatabaseName (Some other) push pull cb ctx = (w', inl c) ->
  (exists (q : ptr) (primary peer : Replicator),
     _otherReplicator c = Some q /\ q <> _replicator c
     /\ engine w' (_replicator c) = Some primary /\ engine w' q = Some peer
     /\ primary_level c [] = level (initial_status primary)
     /\ peer_level c [] = level (initial_status peer))
  /\ _selfRetain c = true /\ refCount c = 2
  /\ forall ns : list Notification,
       (_selfRetain (deliver c ns) = false <->
        exists k, k < length ns
                  /\ primary_level c (firstn (S k) ns) = kC4Stopped
                  /\ peer_level c (firstn (S k) ns) = kC4Stopped)
       /\ refCount (deliver c ns) = (if _selfRetain (deliver c ns) then 2 else 1)
       /\ forall (repl : ptr) (newStatus : C4ReplicatorStatus),
            _selfRetain (deliver c ns) = true ->
            let c' := fst (replicatorStatusChanged (deliver c ns) repl newStatus) in
            let after := ns ++ [(repl, newStatus)] in
            (primary_level c after = kC4Stopped /\ peer_level c after = kC4Stopped ->
             _selfRetain c' = false /\ refCount c' = 1)
            /\ (~ (primary_level c after = kC4Stopped /\ peer_level c after = kC4Stopped) ->
                _selfRetain c' = true /\ refCount c' = 2).
Proof.
  intros H.
  destruct (local_session_shape initial_status c4db_openAgain c4db_getPath throws
              w db other serverAddress remoteDatabaseName push pull cb ctx w' c H)
    as [dbCopy [otherCopy [_ [_ [Hw Hc]]]]].
  cbv zeta in Hw, Hc.
  set (r1 := local_primary_engine c4db_getPath dbCopy otherCopy push pull) in *.
  set (r2 := local_peer_engine c4db_getPath dbCopy otherCopy) in *.
  assert (Hretain : _selfRetain c = true) by (rewrite Hc; reflexivity).
  assert (Hcount : refCount c = 2) by (rewrite Hc; reflexivity).
  split.
  { destruct (engines_lookup (engines w) r1 r2) as [H1 H2].
    exists (S (length (engines w))), r1, r2. rewrite Hw, Hc.
    unfold engine, primary_level, peer_level, status.
    cbn [_replicator _otherReplicator _status _otherLevel engines filter map last].
    split; [reflexivity|]. split; [lia|]. split; [exact H1|]. split; [exact H2|].
    split; reflexivity. }
  split; [exact Hretain|]. split; [exact Hcount|].
  intros ns.
  assert (Hrun : refCount (deliver c ns) = (if _selfRetain (deliver c ns) then 2 else 1)).
  { rewrite refCount_deliver, Hretain, Hcount.
    now destruct (_selfRetain (deliver c ns)). }
  split.
  { rewrite (released_iff_stopped_seen ns c Hretain).
    split; intros [k [Hk Hb]]; exists k; (split; [exact Hk|]);
      now apply both_stopped_deliver. }
  split; [exact Hrun|].
  intros repl newStatus Hheld. cbv zeta.
  rewrite Hheld in Hrun.
  destruct (replicatorStatusChanged_release (deliver c ns) repl newStatus) as [Hs Hr].
  cbv zeta in Hs, Hr. rewrite Hheld in Hs, Hr. rewrite Hrun in Hr.
  cbn [andb pred] in Hs, Hr.
  rewrite <- both_stopped_deliver, deliver_snoc.
  destruct (both_stopped (fst (replicatorStatusChanged (deliver c ns) repl newStatus)));
    cbn [negb] in Hs; split; intros Hb.
  - split; assumption.
  - exfalso. now apply Hb.
  - discriminate Hb.
  - split; assumption.
Qed.

End LocalSession.

Lemma self_reference_released_iff_both_stopped_witness :
  let stopped := mkStatus kC4Stopped (0, 0)%Z kNoError in
  let busy := mkStatus kC4Busy (0, 0)%Z kNoError in
  exists (w' : World) (c : C4Replicator),
    c4repl_new (fun _ => mkStatus kC4Connecting (0, 0)%Z kNoError)
               (fun d => inl (d + 10)) (fun _ => sl "/var/db.cblite2") kNoThrow
               (mkWorld [] []) 1 kAddressUnset nullslice (Some 2)
               kC4OneShot kC4Continuous None 0 = (w', inl c)
    /\ refCount c = 2
    /\ _selfRetain (deliver c [(0, stopped); (1, busy); (1, stopped)]) = false
    /\ refCount (deliver c [(0, stopped); (1, busy); (1, stopped)]) = 1
    /\ refCount (deliver c [(0, stopped); (1, busy)]) = 2.
Proof.
  intros stopped busy. eexists. eexists. split; [reflexivity|].
  destruct (self_reference_released_iff_both_stopped
              (fun _ => mkStatus kC4Connecting (0, 0)%Z kNoError)
              (fun d => inl (d + 10)) (fun _ => sl "/var/db.cblite2") kNoThrow
              (mkWorld [] []) 1 2 kAddressUnset nullslice
              kC4OneShot kC4Continuous None 0 _ _ eq_refl)
    as [_ [_ [Hcount Hruns]]].
  split; [exact Hcount|].
  destruct (Hruns [(0, stopped); (1, busy)]) as [_ [_ Hstep]].
  destruct (Hstep 1 stopped eq_refl) as [Hrelease _].
  destruct (Hrelease (conj eq_refl eq_refl)) as [Hflag Hone].
  split; [exact Hflag|]. split; [exact Hone|].
  destruct (Hruns [(0, stopped)]) as [_ [_ Hstep0]].
  destruct (Hstep0 1 busy eq_refl) as [_ Hkeep].
  apply Hkeep. intros [_ Hpeer]. discriminate Hpeer.
Defined.
